(** * NiftyInvestment: the indicator and signal engine, embedded and verified

    The repository holds two trackers.  [NiftyTracker] (app.js) is the
    basic one: it derives RSI and the 200-day average from a year of
    closes and evaluates the value conditions.  [NiftyEMATracker] is the
    enhanced one: it keeps a bar history, two EMA sequences, the list
    of crossovers, and a versioned, time-stamped cache in localStorage.

    Conventions of the embedding.
    - A JavaScript number is a rational [Q], with exact arithmetic.
      Rounding, NaN and the infinities are not represented; where the
      source can divide by zero the theorems carry the hypothesis that
      excludes it.
    - A value that may be missing is a [jsval]: [undefined], [null] or a
      number.  Reading an array out of range yields [undefined].
    - Array indices computed by subtraction are integers [Z], so that a
      negative index reads [undefined] exactly as in the source.
    - A calendar date (the [YYYY-MM-DD] prefix of an ISO string) is the
      number of its UTC day since the epoch; a time stamp is a number of
      milliseconds.
    - A function that can throw returns an [Outcome]. *)

From Stdlib Require Import ZArith QArith Qabs List Bool Lia Lqa String Sorted.
From stdpp Require Import gmap strings.
Import ListNotations.

Local Open Scope Z_scope.
Local Open Scope Q_scope.

(** ** JavaScript values and operators *)

Inductive jsval : Type :=
| JUndefined
| JNull
| JNum (q : Q).

(** [a < b], [a <= b], [a > b], [a >= b] on numbers. *)
Definition js_lt (a b : Q) : bool := negb (Qle_bool b a).
Definition js_le (a b : Q) : bool := Qle_bool a b.
Definition js_gt (a b : Q) : bool := js_lt b a.
Definition js_ge (a b : Q) : bool := js_le b a.

(** [!x] is false exactly for the truthy values; among numbers only 0
    is falsy, and [undefined] and [null] are falsy. *)
Definition truthy (v : jsval) : bool :=
  match v with
  | JNum q => negb (Qeq_bool q 0)
  | JUndefined | JNull => false
  end.

(** [a || b]. *)
Definition js_or (a b : jsval) : jsval := if truthy a then a else b.

(** [v !== null]. *)
Definition not_null (v : jsval) : bool :=
  match v with JNull => false | _ => true end.

(** ToNumber for the values that stay inside the rational model: [null]
    converts to 0.  ([undefined] converts to NaN in the source; NaN is
    not represented, the theorems that go through [to_number] are stated
    for bars whose close is a number.) *)
Definition to_number (v : jsval) : Q :=
  match v with JNum q => q | JNull | JUndefined => 0 end.

(** [arr[i]] for an integer index: [undefined] out of range. *)
Definition js_get {A : Type} (arr : list A) (i : Z) : option A :=
  if (i <? 0)%Z then None else arr !! Z.to_nat i.

Definition num_get (arr : list Q) (i : Z) : jsval :=
  match js_get arr i with Some q => JNum q | None => JUndefined end.

(** [arr.slice(-n)] for an integer [n]: the start index is [-n]; a
    negative start counts from the end (clamped at 0), a start of 0 or
    more counts from the front. *)
Definition slice_neg {A : Type} (n : Z) (arr : list A) : list A :=
  if (0 <? n)%Z then skipn (length arr - Z.to_nat n) arr
  else skipn (Z.to_nat (- n)) arr.

(** [arr.reduce((acc, x) => acc + x, 0)]. *)
Definition sum_reduce (arr : list Q) : Q := fold_left Qplus arr 0.

Definition of_int (n : Z) : Q := inject_Z n.

Inductive JsError : Type :=
| TypeError
| RangeError
| SyntaxError
| QuotaExceededError.

Inductive Outcome (A : Type) : Type :=
| Returns (a : A)
| Throws (e : JsError).
Arguments Returns {A} a.
Arguments Throws {A} e.

(** Sequencing: an exception raised by [m] skips what follows.  The
    instance gives the notation [x ← m; k]. *)
#[global] Instance outcome_bind : MBind Outcome :=
  fun A B (f : A -> Outcome B) (m : Outcome A) =>
    match m with
    | Returns a => f a
    | Throws e => Throws e
    end.

(** ** Data shared by the two trackers *)

(** The quote arrays of a chart payload.  They come out of JSON.parse,
    so an element is a number or [null], never [undefined]: [Some q] is
    the number [q] and [None] is [null]. *)
Record QuoteArrays : Type := mkQuoteArrays {
  q_close : list (option Q);
  q_high : list (option Q);
  q_low : list (option Q);
  q_open : list (option Q);
  q_volume : list (option Q)
}.

(** [arr[index]] on such an array, as a value. *)
Definition cell (arr : list (option Q)) (index : Z) : jsval :=
  match js_get arr index with
  | Some (Some q) => JNum q
  | Some None => JNull
  | None => JUndefined
  end.

(** [arr.filter(x => x !== null)] on such an array: the numbers, in
    order. *)
Fixpoint filter_not_null (arr : list (option Q)) : list Q :=
  match arr with
  | [] => []
  | Some q :: rest => q :: filter_not_null rest
  | None :: rest => filter_not_null rest
  end.

Record ChartMeta : Type := mkChartMeta {
  regularMarketPrice : jsval;
  previousClose : jsval;
  regularMarketOpen : jsval;
  fiftyTwoWeekHigh : jsval;
  fiftyTwoWeekLow : jsval
}.

(** [response.chart.result[0]]: the part of the payload the trackers
    read.  A payload on which one of the property reads throws (no
    [chart], an empty [result], no [indicators]) is [None]. *)
Record ChartResult : Type := mkChartResult {
  meta : ChartMeta;
  timestamp : list Z;
  quote : QuoteArrays
}.

Definition Payload : Type := option ChartResult.

(** ** The enhanced tracker, [NiftyEMATracker] *)

Module NiftyEMATracker.

Record Thresholds : Type := mkThresholds {
  RSI_OVERSOLD : Q;
  RSI_OVERBOUGHT : Q;
  PE_ATTRACTIVE : Q;
  PE_EXPENSIVE : Q;
  CORRECTION_THRESHOLD : Q;
  ALL_TIME_HIGH : Q;
  EMA_PERIOD_20 : Z;
  EMA_PERIOD_50 : Z
}.

Record Bar : Type := mkBar {
  date : Z;
  close : jsval;
  high : jsval;
  low : jsval;
  open : jsval;
  volume : jsval
}.

Inductive CrossType : Type :=
| BULLISH_CROSS
| BEARISH_CROSS.

Record Crossover : Type := mkCrossover {
  c_date : Z;
  c_type : CrossType;
  c_price : jsval;
  c_ema20 : Q;
  c_ema50 : Q
}.

Record EmaData : Type := mkEmaData {
  ema20 : list Q;
  ema50 : list Q;
  crossovers : list Crossover
}.

(** [this.data], the quote snapshot.  The snapshot is fully populated:
    the fields the signals read are numbers. *)
Record Quote : Type := mkQuote {
  current_price : Q;
  previous_close : Q;
  day_open : Q;
  high_52w : jsval;
  low_52w : jsval;
  all_time_high : Q;
  pe_ratio : Q;
  rsi : Q;
  dma_200 : Q;
  last_updated : Z
}.

Definition THRESHOLDS_default : Thresholds :=
  {| RSI_OVERSOLD := 30;
     RSI_OVERBOUGHT := 70;
     PE_ATTRACTIVE := 21;
     PE_EXPENSIVE := 25;
     CORRECTION_THRESHOLD := 10;
     ALL_TIME_HIGH := 2627735 # 100;
     EMA_PERIOD_20 := 20;
     EMA_PERIOD_50 := 50 |}.

(** The fields of [this] the engine reads and writes.  The constructor
    sets [THRESHOLDS] to [THRESHOLDS_default] and [FALLBACK_HISTORICAL]
    to a randomly generated series of 100 bars; both are then constant. *)
Record Tracker : Type := mkTracker {
  data : option Quote;
  historicalData : list Bar;
  emaData : EmaData;
  THRESHOLDS : Thresholds;
  FALLBACK_HISTORICAL : list Bar
}.

Definition set_data (d : option Quote) (t : Tracker) : Tracker :=
  mkTracker d (historicalData t) (emaData t) (THRESHOLDS t) (FALLBACK_HISTORICAL t).
Definition set_historicalData (h : list Bar) (t : Tracker) : Tracker :=
  mkTracker (data t) h (emaData t) (THRESHOLDS t) (FALLBACK_HISTORICAL t).
Definition set_emaData (e : EmaData) (t : Tracker) : Tracker :=
  mkTracker (data t) (historicalData t) e (THRESHOLDS t) (FALLBACK_HISTORICAL t).

(** *** processHistoricalData *)

(** [new Date(timestamp * 1000).toISOString()] throws a RangeError when
    the time value is outside the range of Date, 8.64e15 ms on either
    side of the epoch. *)
Definition valid_time (ts : Z) : bool :=
  (Z.abs (ts * 1000) <=? 8640000000000000)%Z.

Definition iso_date (ts : Z) : Outcome Z :=
  if valid_time ts then Returns (ts * 1000 / 86400000)%Z else Throws RangeError.

(** The callback of [timestamps.map]. *)
Definition bar_of (quotes : QuoteArrays) (ts : Z) (index : Z) : Outcome Bar :=
  d ← iso_date ts;
  Returns {| date := d;
             close := cell (q_close quotes) index;
             high := cell (q_high quotes) index;
             low := cell (q_low quotes) index;
             open := cell (q_open quotes) index;
             volume := cell (q_volume quotes) index |}.

Fixpoint map_bars (quotes : QuoteArrays) (timestamps : list Z) (index : Z)
  : Outcome (list Bar) :=
  match timestamps with
  | [] => Returns []
  | ts :: rest =>
      b ← bar_of quotes ts index;
      bs ← map_bars quotes rest (index + 1)%Z;
      Returns (b :: bs)
  end.

Definition try_processHistoricalData (payload : Payload) : Outcome (list Bar) :=
  match payload with
  | None => Throws TypeError
  | Some result =>
      bs ← map_bars (quote result) (timestamp result) 0;
      Returns (List.filter (fun item => not_null (close item)) bs)
  end.

Definition processHistoricalData (payload : Payload) (t : Tracker) : Tracker :=
  match try_processHistoricalData payload with
  | Returns bs => set_historicalData bs t
  | Throws _ => set_historicalData (FALLBACK_HISTORICAL t) t
  end.

(** *** calculateEMA and calculateEMAs *)

(** The second loop: [last] is [emaValues[emaValues.length - 1]]. *)
Fixpoint ema_loop (k : Q) (rest : list Q) (last : Q) : list Q :=
  match rest with
  | [] => []
  | p :: rest' =>
      let ema := (p * k) + (last * (1 - k)) in
      ema :: ema_loop k rest' ema
  end.

Definition calculateEMA (prices : list Q) (period : Z) : list Q :=
  if (Z.of_nat (length prices) <? period)%Z then []
  else
    let k := 2 / (of_int period + 1) in
    let sma := sum_reduce (firstn (Z.to_nat period) prices) / of_int period in
    sma :: ema_loop k (skipn (Z.to_nat period) prices) sma.

(** The write of the bundle to the cache that ends the method is the
    effect of [cacheData] on localStorage, given further down; it leaves
    the tracker as it is. *)
Definition calculateEMAs (t : Tracker) : Tracker :=
  if (length (historicalData t) <? 50)%nat then t
  else
    let closePrices := map (fun item => to_number (close item)) (historicalData t) in
    set_emaData
      {| ema20 := calculateEMA closePrices (EMA_PERIOD_20 (THRESHOLDS t));
         ema50 := calculateEMA closePrices (EMA_PERIOD_50 (THRESHOLDS t));
         crossovers := crossovers (emaData t) |} t.

(** *** detectCrossovers *)

(** The body of the loop at index [i].  [Returns None] is an iteration
    that pushes nothing (the [continue], or no crossover type set);
    reading [.date] of a bar that is not there throws. *)
Definition crossover_step (t : Tracker) (startIndex i : Z) : Outcome (option Crossover) :=
  let P20 := EMA_PERIOD_20 (THRESHOLDS t) in
  let current20 := num_get (ema20 (emaData t)) i in
  let current50 := num_get (ema50 (emaData t)) (i - startIndex + P20 - 1) in
  let prev20 := num_get (ema20 (emaData t)) (i - 1) in
  let prev50 := num_get (ema50 (emaData t)) (i - startIndex + P20 - 2) in
  if negb (truthy current20) || negb (truthy current50)
     || negb (truthy prev20) || negb (truthy prev50)
  then Returns None
  else
    let c20 := to_number current20 in
    let c50 := to_number current50 in
    let p20 := to_number prev20 in
    let p50 := to_number prev50 in
    let crossoverType :=
      if js_le p20 p50 && js_gt c20 c50 then Some BULLISH_CROSS
      else if js_ge p20 p50 && js_lt c20 c50 then Some BEARISH_CROSS
      else None in
    match crossoverType with
    | None => Returns None
    | Some ty =>
        match js_get (historicalData t) i with
        | None => Throws TypeError
        | Some bar =>
            Returns (Some {| c_date := date bar;
                             c_type := ty;
                             c_price := close bar;
                             c_ema20 := c20;
                             c_ema50 := c50 |})
        end
    end.

(** [n] iterations of the loop from index [i], pushing onto
    [crossovers]. *)
Fixpoint crossover_loop (t : Tracker) (startIndex : Z) (n : nat) (i : Z)
    (crossovers : list Crossover) : Outcome (list Crossover) :=
  match n with
  | O => Returns crossovers
  | S n' =>
      r ← crossover_step t startIndex i;
      crossover_loop t startIndex n' (i + 1)%Z
        (match r with Some c => crossovers ++ [c] | None => crossovers end)
  end.

Definition startIndex_of (T : Thresholds) : Z :=
  Z.max (EMA_PERIOD_50 T - EMA_PERIOD_20 T) 1.

Definition detectCrossovers (t : Tracker) : Outcome Tracker :=
  let len20 := Z.of_nat (length (ema20 (emaData t))) in
  let len50 := Z.of_nat (length (ema50 (emaData t))) in
  if (len20 <? 2)%Z || (len50 <? 2)%Z then Returns t
  else
    let startIndex := startIndex_of (THRESHOLDS t) in
    cs ← crossover_loop t startIndex (Z.to_nat (len20 - startIndex)) startIndex [];
    Returns (set_emaData {| ema20 := ema20 (emaData t);
                            ema50 := ema50 (emaData t);
                            crossovers := cs |} t).

(** *** getCurrentEMATrend *)

Inductive Trend : Type :=
| BULLISH
| BEARISH
| UNKNOWN.

Record TrendState : Type := mkTrendState {
  trend : Trend;
  t_ema20 : jsval;
  t_ema50 : jsval;
  lastCrossover : option Crossover;
  daysSinceCross : option Z
}.

Definition ms_per_day : Z := (1000 * 60 * 60 * 24)%Z.

(** [now] is the value of [new Date()], in milliseconds. *)
Definition getCurrentEMATrend (now : Z) (t : Tracker) : TrendState :=
  let e20 := ema20 (emaData t) in
  let e50 := ema50 (emaData t) in
  if (length e20 =? 0)%nat || (length e50 =? 0)%nat then
    {| trend := UNKNOWN; t_ema20 := JNull; t_ema50 := JNull;
       lastCrossover := None; daysSinceCross := None |}
  else
    let current20 := num_get e20 (Z.of_nat (length e20) - 1) in
    let current50 := num_get e50 (Z.of_nat (length e50) - 1) in
    let trend := if js_gt (to_number current20) (to_number current50)
                 then BULLISH else BEARISH in
    let cs := crossovers (emaData t) in
    let lastCrossover :=
      if (0 <? length cs)%nat then js_get cs (Z.of_nat (length cs) - 1) else None in
    let daysSinceCross :=
      match lastCrossover with
      | Some c => Some ((now - c_date c * ms_per_day) / ms_per_day)%Z
      | None => None
      end in
    {| trend := trend; t_ema20 := current20; t_ema50 := current50;
       lastCrossover := lastCrossover; daysSinceCross := daysSinceCross |}.

(** *** calculateInvestmentSignals *)

Inductive Signal : Type :=
| STRONG_BUY
| BUY
| AVOID
| WAIT.

Record ValueConditions : Type := mkValueConditions {
  vc_correction : bool;
  vc_rsi : bool;
  vc_pe : bool
}.

(** [recentCross] holds the truthiness of the [&&] chain (the chain
    itself yields [null] when there is no crossover). *)
Record MomentumConditions : Type := mkMomentumConditions {
  bullishTrend : bool;
  recentCross : bool;
  priceAboveEMAs : bool
}.

Record ValueResult : Type := mkValueResult {
  v_signal : Signal;
  v_conditions : ValueConditions;
  v_description : string
}.

Record MomentumResult : Type := mkMomentumResult {
  m_signal : Signal;
  m_conditions : MomentumConditions;
  m_description : string;
  m_trend : TrendState
}.

Record CombinedResult : Type := mkCombinedResult {
  cb_signal : Signal;
  cb_description : string
}.

Record SignalResult : Type := mkSignalResult {
  value : ValueResult;
  momentum : MomentumResult;
  combined : CombinedResult
}.

Definition calculateCorrection (t : Tracker) : Q :=
  match data t with
  | None => 0
  | Some d => ((current_price d - all_time_high d) / all_time_high d) * 100
  end.

Definition count_true (bs : list bool) : nat := length (List.filter (fun c : bool => c) bs).

Definition getValueStrategyDescription (conditions : ValueConditions) : string :=
  let metCount :=
    count_true [vc_correction conditions; vc_rsi conditions; vc_pe conditions] in
  if (metCount =? 3)%nat then "All value conditions met - Strong buy opportunity"
  else if (metCount =? 2)%nat then "Most value conditions met - Consider buying"
  else if (metCount =? 1)%nat then "Few conditions met - Wait for better entry"
  else "No value conditions met - Avoid buying".

(** [trend.daysSinceCross < 10] with [daysSinceCross] null compares 0. *)
Definition days_number (d : option Z) : Z :=
  match d with Some n => n | None => 0%Z end.

Definition getMomentumStrategyDescription (tr : TrendState) : string :=
  match trend tr with
  | BULLISH =>
      if (days_number (daysSinceCross tr) <? 10)%Z
      then "Fresh bullish crossover - Strong momentum"
      else if (days_number (daysSinceCross tr) <? 30)%Z
      then "Bullish trend continues - Good momentum"
      else "Extended bullish trend - Monitor for reversal"
  | BEARISH => "Bearish trend - Avoid new positions"
  | UNKNOWN => "Trend unclear - Wait for confirmation"
  end.

Definition getCombinedDescription (signal : Signal) : string :=
  match signal with
  | STRONG_BUY => "Both strategies bullish - Excellent opportunity"
  | BUY => "One strategy bullish - Good opportunity"
  | AVOID => "Bearish momentum - Avoid new positions"
  | WAIT => "Mixed signals - Wait for clarity"
  end.

Definition is_BUY (s : Signal) : bool :=
  match s with BUY => true | _ => false end.
Definition is_AVOID (s : Signal) : bool :=
  match s with AVOID => true | _ => false end.
Definition is_BULLISH (tr : Trend) : bool :=
  match tr with BULLISH => true | _ => false end.
Definition is_BEARISH (tr : Trend) : bool :=
  match tr with BEARISH => true | _ => false end.
Definition is_BULLISH_CROSS (c : CrossType) : bool :=
  match c with BULLISH_CROSS => true | _ => false end.

Definition calculateInvestmentSignals (now : Z) (t : Tracker) : option SignalResult :=
  match data t with
  | None => None
  | Some d =>
      let T := THRESHOLDS t in
      let correction := calculateCorrection t in
      let valueConditions :=
        {| vc_correction := js_le correction (- CORRECTION_THRESHOLD T);
           vc_rsi := js_lt (rsi d) (RSI_OVERSOLD T);
           vc_pe := js_lt (pe_ratio d) (PE_ATTRACTIVE T) |} in
      let valueSignal :=
        if forallb (fun c : bool => c)
             [vc_correction valueConditions; vc_rsi valueConditions;
              vc_pe valueConditions]
        then BUY else WAIT in
      let emaTrend := getCurrentEMATrend now t in
      let momentumConditions :=
        {| bullishTrend := is_BULLISH (trend emaTrend);
           recentCross :=
             match lastCrossover emaTrend with
             | Some c => is_BULLISH_CROSS (c_type c)
                         && (days_number (daysSinceCross emaTrend) <? 30)%Z
             | None => false
             end;
           priceAboveEMAs :=
             js_gt (current_price d) (to_number (t_ema20 emaTrend))
             && js_gt (current_price d) (to_number (t_ema50 emaTrend)) |} in
      let momentumSignal :=
        if bullishTrend momentumConditions then BUY
        else if is_BEARISH (trend emaTrend) then AVOID else WAIT in
      let combinedSignal :=
        if is_BUY valueSignal && is_BUY momentumSignal then STRONG_BUY
        else if is_BUY valueSignal || is_BUY momentumSignal then BUY
        else if is_AVOID momentumSignal then AVOID
        else WAIT in
      Some {| value := {| v_signal := valueSignal;
                          v_conditions := valueConditions;
                          v_description := getValueStrategyDescription valueConditions |};
              momentum := {| m_signal := momentumSignal;
                             m_conditions := momentumConditions;
                             m_description := getMomentumStrategyDescription emaTrend;
                             m_trend := emaTrend |};
              combined := {| cb_signal := combinedSignal;
                             cb_description := getCombinedDescription combinedSignal |} |}
  end.

(** *** The cache: cacheData and loadCachedData *)

(** What [cacheData] is called with: [this.data] under [nifty_current],
    [this.historicalData] under [nifty_historical], [this.emaData] under
    [nifty_ema]. *)
Inductive CacheValue : Type :=
| VQuote (d : option Quote)
| VBars (bs : list Bar)
| VEma (e : EmaData).

Record CacheEntry : Type := mkCacheEntry {
  e_data : CacheValue;
  e_timestamp : Z;
  e_version : string
}.

(** An item of localStorage is a text.  [Parsed e] is the text
    [JSON.stringify] gives for the entry [e], which [JSON.parse] reads
    back as [e] (the values cached are plain data: finite numbers,
    strings, arrays and objects).  [EmptyText] is the empty string, which
    the [if (item)] tests skip; [Unparsable] is any other text, on which
    [JSON.parse] or the read of [cached.version] throws. *)
Inductive Stored : Type :=
| EmptyText
| Unparsable
| Parsed (e : CacheEntry).

(** localStorage: its items, and whether the quota is used up, in which
    case [setItem] throws. *)
Record LocalStorage : Type := mkLocalStorage {
  items : gmap string Stored;
  full : bool
}.

Definition setItem (key : string) (v : Stored) (ls : LocalStorage) : Outcome LocalStorage :=
  if full ls then Throws QuotaExceededError
  else Returns {| items := <[key := v]> (items ls); full := full ls |}.

Definition getItem (key : string) (ls : LocalStorage) : option Stored :=
  items ls !! key.

Definition current_version : string := "2.0".

(** [now] is the value of [Date.now()]. *)
Definition cacheData (now : Z) (key : string) (d : CacheValue) (ls : LocalStorage)
  : LocalStorage :=
  let cacheData := {| e_data := d; e_timestamp := now; e_version := current_version |} in
  match setItem key (Parsed cacheData) ls with
  | Returns ls' => ls'
  | Throws _ => ls
  end.

Definition JSON_parse (s : Stored) : Outcome CacheEntry :=
  match s with
  | Parsed e => Returns e
  | EmptyText | Unparsable => Throws SyntaxError
  end.

(** The test guarding each assignment; [window] is the age limit in
    milliseconds. *)
Definition usable (now window : Z) (cached : CacheEntry) : bool :=
  String.eqb (e_version cached) current_version
  && (now - e_timestamp cached <? window)%Z.

(** The three blocks of the [try].  Each call site of [cacheData] stores
    one kind of value under its key; an entry of another kind under that
    key is not a value of the field and leaves it as it is. *)
Definition load_current (now : Z) (item : option Stored) (t : Tracker) : Outcome Tracker :=
  match item with
  | None | Some EmptyText => Returns t
  | Some s =>
      cached ← JSON_parse s;
      if usable now 600000 cached then
        match e_data cached with
        | VQuote d => Returns (set_data d t)
        | _ => Returns t
        end
      else Returns t
  end.

Definition load_historical (now : Z) (item : option Stored) (t : Tracker) : Outcome Tracker :=
  match item with
  | None | Some EmptyText => Returns t
  | Some s =>
      cached ← JSON_parse s;
      if usable now 3600000 cached then
        match e_data cached with
        | VBars bs => Returns (set_historicalData bs t)
        | _ => Returns t
        end
      else Returns t
  end.

Definition load_ema (now : Z) (item : option Stored) (t : Tracker) : Outcome Tracker :=
  match item with
  | None | Some EmptyText => Returns t
  | Some s =>
      cached ← JSON_parse s;
      if usable now 3600000 cached then
        match e_data cached with
        | VEma e => Returns (set_emaData e t)
        | _ => Returns t
        end
      else Returns t
  end.

(** An exception leaves the assignments made before it in place and
    skips the blocks after it. *)
Definition loadCachedData (now : Z) (ls : LocalStorage) (t : Tracker) : Tracker :=
  let currentData := getItem "nifty_current" ls in
  let historicalData := getItem "nifty_historical" ls in
  let emaData := getItem "nifty_ema" ls in
  match load_current now currentData t with
  | Throws _ => t
  | Returns t1 =>
      match load_historical now historicalData t1 with
      | Throws _ => t1
      | Returns t2 =>
          match load_ema now emaData t2 with
          | Throws _ => t2
          | Returns t3 => t3
          end
      end
  end.

(** *** calculateUpside, useFallbackData and processNiftyData *)


Definition FALLBACK_pe_ratio : Q := 2173 # 100.
Definition FALLBACK_rsi : Q := 5321 # 100.
Definition FALLBACK_dma_200 : Q := 24631.

(** [{ ...this.FALLBACK_DATA }] with [last_updated] set.  The fallback
    object also carries five EMA fields that nothing reads. *)
Definition useFallbackData (now : Z) (t : Tracker) : Tracker :=
  set_data
    (Some {| current_price := 24741;
             previous_close := 2473430 # 100;
             day_open := 2481885 # 100;
             high_52w := JNum (2627735 # 100);
             low_52w := JNum (2174365 # 100);
             all_time_high := 2627735 # 100;
             pe_ratio := FALLBACK_pe_ratio;
             rsi := FALLBACK_rsi;
             dma_200 := FALLBACK_dma_200;
             last_updated := now |}) t.

(** [processNiftyData]: a payload whose [meta] cannot be read falls
    back.  The three prices pass through [to_number]: in a payload they
    are numbers, and a price that is missing on both sides of [||] is
    outside the rational model. *)
Definition processNiftyData (now : Z) (response : Payload) (t : Tracker) : Tracker :=
  match response with
  | None => useFallbackData now t
  | Some result =>
      let meta := meta result in
      set_data
        (Some {| current_price :=
                   to_number (js_or (regularMarketPrice meta) (previousClose meta));
                 previous_close := to_number (previousClose meta);
                 day_open :=
                   to_number (js_or (regularMarketOpen meta) (previousClose meta));
                 high_52w := fiftyTwoWeekHigh meta;
                 low_52w := fiftyTwoWeekLow meta;
                 all_time_high := ALL_TIME_HIGH (THRESHOLDS t);
                 pe_ratio := FALLBACK_pe_ratio;
                 rsi := FALLBACK_rsi;
                 dma_200 := FALLBACK_dma_200;
                 last_updated := now |}) t
  end.

(** *** fetchNiftyData and fetchHistoricalData *)

(** The tracker together with localStorage.  A fetch is given by what
    comes back: [None] when [fetch] rejects, the response is not [ok] or
    its body is not JSON, and the parsed body otherwise.  [now] is the
    clock read by the processing step, [now_cache] the one read by
    [cacheData]. *)
Definition World : Type := (Tracker * LocalStorage)%type.

Definition fetchNiftyData (now now_cache : Z) (response : option Payload) (w : World)
  : World :=
  let '(t, ls) := w in
  match response with
  | None => (useFallbackData now t, ls)
  | Some payload =>
      let t' := processNiftyData now payload t in
      (t', cacheData now_cache "nifty_current" (VQuote (data t')) ls)
  end.

Definition fetchHistoricalData (now_cache : Z) (response : option Payload) (w : World)
  : World :=
  let '(t, ls) := w in
  match response with
  | None => (set_historicalData (FALLBACK_HISTORICAL t) t, ls)
  | Some payload =>
      let t' := processHistoricalData payload t in
      (t', cacheData now_cache "nifty_historical" (VBars (historicalData t')) ls)
  end.

(** *** Market hours and the refresh timer *)

(** The wall clock of Asia/Kolkata, five and a half hours ahead of UTC
    all year, read off a time in milliseconds: day of the week (0 is
    Sunday; the epoch fell on a Thursday), hour and minute. *)
Definition ist_ms (now : Z) : Z := (now + 19800000)%Z.
Definition day_of_week (local_ms : Z) : Z := ((local_ms / 86400000 + 4) mod 7)%Z.
Definition hours_of (local_ms : Z) : Z := ((local_ms / 3600000) mod 24)%Z.
Definition minutes_of (local_ms : Z) : Z := ((local_ms / 60000) mod 60)%Z.

Definition market_open_at (local_ms : Z) : bool :=
  let hours := hours_of local_ms in
  let minutes := minutes_of local_ms in
  let currentMinutes := (hours * 60 + minutes)%Z in
  let startMinutes := (9 * 60 + 15)%Z in
  let endMinutes := (15 * 60 + 30)%Z in
  let dayOfWeek := day_of_week local_ms in
  let isWeekday := (1 <=? dayOfWeek)%Z && (dayOfWeek <=? 5)%Z in
  isWeekday && (startMinutes <=? currentMinutes)%Z && (currentMinutes <=? endMinutes)%Z.

Definition isMarketHours (now : Z) : bool := market_open_at (ist_ms now).

(** The timers of the page: the live ones with their period, and the
    next handle [setInterval] gives out.  Handles are positive. *)
Record Timers : Type := mkTimers {
  live : gmap positive Z;
  next_handle : positive
}.

Definition setInterval (period : Z) (tm : Timers) : positive * Timers :=
  (next_handle tm,
   {| live := <[next_handle tm := period]> (live tm);
      next_handle := (next_handle tm + 1)%positive |}).

Definition clearInterval (handle : positive) (tm : Timers) : Timers :=
  {| live := delete handle (live tm); next_handle := next_handle tm |}.

(** The fields of [this] the scheduling methods use. *)
Record Scheduler : Type := mkScheduler {
  refreshInterval : option positive;
  isOnline : bool
}.

Definition clearAutoRefresh (st : Scheduler * Timers) : Scheduler * Timers :=
  let '(s, tm) := st in
  match refreshInterval s with
  | Some handle =>
      ({| refreshInterval := None; isOnline := isOnline s |}, clearInterval handle tm)
  | None => (s, tm)
  end.

Definition setupAutoRefresh (now : Z) (st : Scheduler * Timers) : Scheduler * Timers :=
  let '(s, tm) := clearAutoRefresh st in
  let '(handle, tm') :=
    if isMarketHours now then setInterval 30000 tm else setInterval 300000 tm in
  ({| refreshInterval := Some handle; isOnline := isOnline s |}, tm').

Definition handleOnlineStatus (now : Z) (online : bool) (st : Scheduler * Timers)
  : Scheduler * Timers :=
  let '(s, tm) := st in
  let s' := {| refreshInterval := refreshInterval s; isOnline := online |} in
  if online then setupAutoRefresh now (s', tm) else clearAutoRefresh (s', tm).

End NiftyEMATracker.

(** ** The basic tracker, [NiftyTracker] (app.js) *)

Module NiftyTracker.

Record Thresholds : Type := mkThresholds {
  RSI_OVERSOLD : Q;
  RSI_OVERBOUGHT : Q;
  PE_ATTRACTIVE : Q;
  PE_EXPENSIVE : Q;
  CORRECTION_THRESHOLD : Q;
  ALL_TIME_HIGH : Q
}.

Definition THRESHOLDS : Thresholds :=
  {| RSI_OVERSOLD := 30;
     RSI_OVERBOUGHT := 70;
     PE_ATTRACTIVE := 21;
     PE_EXPENSIVE := 25;
     CORRECTION_THRESHOLD := 10;
     ALL_TIME_HIGH := 2627735 # 100 |}.

(** [Math.max(...xs)] and [Math.min(...xs)] are infinite on an empty
    list. *)
Inductive Extreme : Type :=
| NegInfinity
| PosInfinity
| Finite (q : Q).

Record Data : Type := mkData {
  current_price : jsval;
  previous_close : jsval;
  day_open : jsval;
  high_52w : Extreme;
  low_52w : Extreme;
  all_time_high : Q;
  pe_ratio : Q;
  rsi : Q;
  dma_200 : Q;
  last_updated : Z
}.

Definition FALLBACK_rsi : Q := 5321 # 100.
Definition FALLBACK_dma_200 : Q := 24631.
Definition FALLBACK_pe_ratio : Q := 2173 # 100.

(** [{...this.FALLBACK_DATA, last_updated: ...}]. *)
Definition useFallbackData (now : Z) : Data :=
  {| current_price := JNum 24741;
     previous_close := JNum (2473430 # 100);
     day_open := JNum (2481885 # 100);
     high_52w := Finite (2627735 # 100);
     low_52w := Finite (2174365 # 100);
     all_time_high := 2627735 # 100;
     pe_ratio := FALLBACK_pe_ratio;
     rsi := FALLBACK_rsi;
     dma_200 := FALLBACK_dma_200;
     last_updated := now |}.

Definition calculate200DMA (prices : list Q) : Q :=
  if (length prices <? 200)%nat then FALLBACK_dma_200
  else
    let last200 := slice_neg 200 prices in
    let sum := sum_reduce last200 in
    sum / of_int (Z.of_nat (length last200)).

(** The loop from [i = 1]: [prices[i] - prices[i - 1]]. *)
Fixpoint changes_of (prices : list Q) : list Q :=
  match prices with
  | prev :: ((cur :: _) as rest) => (cur - prev) :: changes_of rest
  | _ => []
  end.

Definition calculateRSI (prices : list Q) (period : Z) : Q :=
  if (Z.of_nat (length prices) <? period + 1)%Z then FALLBACK_rsi
  else
    let changes := changes_of prices in
    let recentChanges := slice_neg period changes in
    let gains := List.filter (fun change => js_gt change 0) recentChanges in
    let losses := map Qabs (List.filter (fun change => js_lt change 0) recentChanges) in
    let avgGain :=
      if (0 <? length gains)%nat then sum_reduce gains / of_int period else 0 in
    let avgLoss :=
      if (0 <? length losses)%nat then sum_reduce losses / of_int period else 0 in
    if Qeq_bool avgLoss 0 then 100
    else
      let rs := avgGain / avgLoss in
      100 - (100 / (1 + rs)).

(** The default argument, [period = 14]. *)
Definition calculateRSI_default (prices : list Q) : Q := calculateRSI prices 14.

Definition Math_max (xs : list Q) : Extreme :=
  fold_left (fun acc x =>
               match acc with
               | Finite m => Finite (if js_gt x m then x else m)
               | _ => Finite x
               end) xs NegInfinity.

Definition Math_min (xs : list Q) : Extreme :=
  fold_left (fun acc x =>
               match acc with
               | Finite m => Finite (if js_lt x m then x else m)
               | _ => Finite x
               end) xs PosInfinity.

(** The series the indicators are computed on. *)
Definition prices_of (result : ChartResult) : list Q :=
  filter_not_null (q_close (quote result)).

(** The body of the [try] up to the assignment of [this.data]; the
    write to localStorage and the rendering that follow are not part of
    the engine. *)
Definition try_processYahooData (now : Z) (yahooData : Payload) : Outcome Data :=
  match yahooData with
  | None => Throws TypeError
  | Some result =>
      let meta := meta result in
      let quote := quote result in
      let prices := filter_not_null (q_close quote) in
      let highs := filter_not_null (q_high quote) in
      let lows := filter_not_null (q_low quote) in
      let currentPrice :=
        js_or (regularMarketPrice meta)
              (num_get prices (Z.of_nat (length prices) - 1)) in
      let previousClose :=
        js_or (previousClose meta)
              (num_get prices (Z.of_nat (length prices) - 2)) in
      let open :=
        js_or (regularMarketOpen meta)
              (cell (q_open quote) (Z.of_nat (length (q_open quote)) - 1)) in
      let high52w := Math_max highs in
      let low52w := Math_min lows in
      let dma200 := calculate200DMA prices in
      let rsi := calculateRSI_default prices in
      Returns {| current_price := currentPrice;
                 previous_close := previousClose;
                 day_open := open;
                 high_52w := high52w;
                 low_52w := low52w;
                 all_time_high := ALL_TIME_HIGH THRESHOLDS;
                 pe_ratio := FALLBACK_pe_ratio;
                 rsi := rsi;
                 dma_200 := dma200;
                 last_updated := now |}
  end.

Definition processYahooData (now : Z) (yahooData : Payload) : Data :=
  match try_processYahooData now yahooData with
  | Returns d => d
  | Throws _ => useFallbackData now
  end.

(** [updateUI]: the correction handed to [updateInvestmentSignal], for a
    snapshot whose current price is the number [current_price]. *)
Definition correctionPercent (current_price all_time_high : Q) : Q :=
  ((current_price - all_time_high) / all_time_high) * 100.

Record Conditions : Type := mkConditions {
  c_correction : bool;
  c_rsi : bool;
  c_pe : bool
}.

Inductive Badge : Type :=
| BUY_SIGNAL
| WAIT.

(** [updateInvestmentSignal]: the conditions and the text of the signal
    badge. *)
Definition conditions_of (d : Data) (correctionPercent : Q) : Conditions :=
  {| c_correction := js_ge (Qabs correctionPercent) (CORRECTION_THRESHOLD THRESHOLDS);
     c_rsi := js_lt (rsi d) (RSI_OVERSOLD THRESHOLDS);
     c_pe := js_lt (pe_ratio d) (PE_ATTRACTIVE THRESHOLDS) |}.

Definition updateInvestmentSignal (d : Data) (correctionPercent : Q) : Badge :=
  let conditions := conditions_of d correctionPercent in
  let allConditionsMet :=
    c_correction conditions && c_rsi conditions && c_pe conditions in
  if allConditionsMet then BUY_SIGNAL else WAIT.

(** *** Market hours and the refresh timer *)

(** The basic tracker reads the browser's own wall clock;
    [tz_offset_ms] is how far that clock is ahead of UTC. *)
Definition isMarketHours (tz_offset_ms now : Z) : bool :=
  NiftyEMATracker.market_open_at (now + tz_offset_ms)%Z.

Definition clearAutoRefresh
    (st : NiftyEMATracker.Scheduler * NiftyEMATracker.Timers)
  : NiftyEMATracker.Scheduler * NiftyEMATracker.Timers :=
  NiftyEMATracker.clearAutoRefresh st.

Definition setupAutoRefresh (tz_offset_ms now : Z)
    (st : NiftyEMATracker.Scheduler * NiftyEMATracker.Timers)
  : NiftyEMATracker.Scheduler * NiftyEMATracker.Timers :=
  let '(s, tm) := clearAutoRefresh st in
  if isMarketHours tz_offset_ms now && NiftyEMATracker.isOnline s then
    let '(handle, tm') := NiftyEMATracker.setInterval 30000 tm in
    ({| NiftyEMATracker.refreshInterval := Some handle;
        NiftyEMATracker.isOnline := NiftyEMATracker.isOnline s |}, tm')
  else (s, tm).

End NiftyTracker.

(** ** The service worker (sw.js) *)

Module ServiceWorker.

(** The body of a response: a text that is not JSON, or a JSON text,
    written as the chart payload the trackers read from it. *)
Inductive Body : Type :=
| Text (s : string)
| Json (payload : Payload).

(** A header value.  [HDate ms] is the ISO string of the time [ms];
    [HText s] is a text that is not a date. *)
Inductive HVal : Type :=
| HDate (ms : Z)
| HText (s : string).

Record Response : Type := mkResponse {
  status : Z;
  statusText : string;
  body : Body;
  headers : gmap string HVal
}.

(** [response.ok]. *)
Definition ok (r : Response) : bool :=
  (200 <=? status r)%Z && (status r <=? 299)%Z.

Record Request : Type := mkRequest {
  href : string;
  destination : string
}.

(** A cache of the Cache API, keyed by the URL of the request. *)
Definition cache_match (req : Request) (cache : gmap string Response) : option Response :=
  cache !! href req.

Definition cache_put (req : Request) (r : Response) (cache : gmap string Response)
  : gmap string Response :=
  <[href req := r]> cache.

(** What [fetch] settles to. *)
Inductive FetchResult : Type :=
| Resolved (r : Response)
| Rejected.

Definition CACHE_DURATION_STATIC : Z := (24 * 60 * 60 * 1000)%Z.
Definition CACHE_DURATION_API : Z := (5 * 60 * 1000)%Z.

(** [new Date(response.headers.get("sw-cache-date") || 0).getTime()]:
    the epoch without the header, [None] (NaN) for a text that is not a
    date. *)
Definition cache_time (r : Response) : option Z :=
  match headers r !! "sw-cache-date" with
  | None => Some 0%Z
  | Some (HDate ms) => Some ms
  | Some (HText s) => if String.eqb s "" then Some 0%Z else None
  end.

(** [now - t > duration], false when [t] is NaN. *)
Definition older_than (now duration : Z) (t : option Z) : bool :=
  match t with
  | Some ms => (duration <? now - ms)%Z
  | None => false
  end.

(** The copy that is put in the cache: the response with the
    [sw-cache-date] header set. *)
Definition dated (now : Z) (r : Response) : Response :=
  {| status := status r;
     statusText := statusText r;
     body := body r;
     headers := <["sw-cache-date" := HDate now]> (headers r) |}.

(** [getOfflinePage]; the HTML of the page is abridged to its heading. *)
Definition offline_page : Response :=
  {| status := 200;
     statusText := "OK";
     body := Text "You're Offline";
     headers := {["Content-Type" := HText "text/html"; "sw-offline" := HText "true"]} |}.

Definition unavailable (message : string) : Response :=
  {| status := 503;
     statusText := "Service Unavailable";
     body := Text message;
     headers := ∅ |}.

(** The [catch] of [handleStaticAsset]. *)
Definition static_failure (req : Request) : Response :=
  if String.eqb (destination req) "document" then offline_page
  else unavailable "Asset not available offline".

(** [handleStaticAsset].  [now] is the clock at the expiry test,
    [now_put] the clock when the copy is dated, [net] what [fetch]
    settles to if it is called. *)
Definition handleStaticAsset (now now_put : Z) (net : FetchResult) (req : Request)
    (cache : gmap string Response) : Response * gmap string Response :=
  let cachedResponse := cache_match req cache in
  let fresh :=
    match cachedResponse with
    | Some c => negb (older_than now CACHE_DURATION_STATIC (cache_time c))
    | None => false
    end in
  match cachedResponse, fresh with
  | Some c, true => (c, cache)
  | _, _ =>
      match net with
      | Rejected => (static_failure req, cache)
      | Resolved networkResponse =>
          if ok networkResponse
          then (networkResponse, cache_put req (dated now_put networkResponse) cache)
          else
            match cachedResponse with
            | Some c => (c, cache)
            | None => (static_failure req, cache)
            end
      end
  end.

(** [getFallbackAPIResponse]. *)
Definition fallback_chart (now : Z) : ChartResult :=
  {| meta := {| regularMarketPrice := JNum 24741;
                previousClose := JNum (2473430 # 100);
                regularMarketOpen := JNum (2481885 # 100);
                fiftyTwoWeekHigh := JNum (2627735 # 100);
                fiftyTwoWeekLow := JNum (2174365 # 100) |};
     timestamp := [(now / 1000)%Z];
     quote := {| q_close := [Some 24741];
                 q_high := [Some 24850];
                 q_low := [Some 24680];
                 q_open := [Some (2481885 # 100)];
                 q_volume := [Some 1500000] |} |}.

Definition getFallbackAPIResponse (now : Z) : Response :=
  {| status := 200;
     statusText := "OK";
     body := Json (Some (fallback_chart now));
     headers := {["Content-Type" := HText "application/json";
                  "sw-fallback" := HText "true";
                  "sw-cache-date" := HDate now]} |}.

(** [handleAPIRequest].  [net] is what [fetch] settles to within the
    five seconds allowed ([Rejected] when it is aborted); [now_put] is
    the clock when the copy is dated, [now] the clock when the cache is
    consulted. *)
Definition handleAPIRequest (now_put now : Z) (net : FetchResult) (req : Request)
    (cache : gmap string Response) : Response * gmap string Response :=
  let from_cache :=
    match cache_match req cache with
    | Some cachedResponse =>
        let headers :=
          if older_than now CACHE_DURATION_API (cache_time cachedResponse)
          then <["sw-cache-stale" := HText "true"]> (headers cachedResponse)
          else headers cachedResponse in
        ({| status := status cachedResponse;
            statusText := statusText cachedResponse;
            body := body cachedResponse;
            headers := headers |}, cache)
    | None => (getFallbackAPIResponse now, cache)
    end in
  match net with
  | Resolved networkResponse =>
      if ok networkResponse
      then (networkResponse, cache_put req (dated now_put networkResponse) cache)
      else from_cache
  | Rejected => from_cache
  end.

(** [cache.addAll] of the install step: each asset is fetched and the
    response is stored as the server sent it; the step fails, and
    stores nothing, when one of the responses is not [ok]. *)
Definition addAll (fetched : list (Request * Response)) (cache : gmap string Response)
  : option (gmap string Response) :=
  if forallb (fun entry => ok (snd entry)) fetched
  then Some (fold_left (fun c entry => cache_put (fst entry) (snd entry) c) fetched cache)
  else None.

(** What a tracker's fetch step gets from a response: nothing when the
    response is not [ok] or [response.json()] rejects. *)
Definition json_of (r : Response) : option Payload :=
  if ok r then
    match body r with
    | Json payload => Some payload
    | Text _ => None
    end
  else None.

End ServiceWorker.

(** ** Vocabulary of the specification *)

(** The sum and the simple average of a window of prices. *)
Fixpoint Qsum (l : list Q) : Q :=
  match l with
  | [] => 0
  | x :: rest => x + Qsum rest
  end.

Definition simple_average (l : list Q) : Q :=
  Qsum l / of_int (Z.of_nat (length l)).

(** Shapes of a price series.  Difference [i] is the one between price
    [i] and price [i + 1]; with [n] prices the last [period] differences
    are those of index [n - 1 - period] and above. *)
Definition no_recent_loss (period : Z) (prices : list Q) : Prop :=
  forall (i : nat) (a b : Q),
    (Z.of_nat (length prices) - 1 - period <= Z.of_nat i)%Z ->
    prices !! i = Some a -> prices !! S i = Some b -> 0 <= b - a.

Definition constant_series (prices : list Q) : Prop :=
  exists c, forall (i : nat) (p : Q), prices !! i = Some p -> p == c.

Definition nondecreasing (prices : list Q) : Prop :=
  forall (i : nat) (a b : Q),
    prices !! i = Some a -> prices !! S i = Some b -> a <= b.


(** The tracker as the constructor leaves it. *)
Definition constructed (fallback : list NiftyEMATracker.Bar) : NiftyEMATracker.Tracker :=
  {| NiftyEMATracker.data := None;
     NiftyEMATracker.historicalData := [];
     NiftyEMATracker.emaData :=
       {| NiftyEMATracker.ema20 := [];
          NiftyEMATracker.ema50 := [];
          NiftyEMATracker.crossovers := [] |};
     NiftyEMATracker.THRESHOLDS := NiftyEMATracker.THRESHOLDS_default;
     NiftyEMATracker.FALLBACK_HISTORICAL := fallback |}.

(** A quote snapshot with the given price, RSI and PE, measured against
    the all-time high of the thresholds. *)
Definition snapshot (price rsi pe : Q) : NiftyEMATracker.Quote :=
  {| NiftyEMATracker.current_price := price;
     NiftyEMATracker.previous_close := price;
     NiftyEMATracker.day_open := price;
     NiftyEMATracker.high_52w := JNum (2627735 # 100);
     NiftyEMATracker.low_52w := JNum (2174365 # 100);
     NiftyEMATracker.all_time_high := 2627735 # 100;
     NiftyEMATracker.pe_ratio := pe;
     NiftyEMATracker.rsi := rsi;
     NiftyEMATracker.dma_200 := 24631;
     NiftyEMATracker.last_updated := 0 |}.

(** A tracker holding a snapshot and the two EMA sequences. *)
Definition tracker_with (d : NiftyEMATracker.Quote) (fast slow : list Q)
  : NiftyEMATracker.Tracker :=
  NiftyEMATracker.set_emaData
    {| NiftyEMATracker.ema20 := fast;
       NiftyEMATracker.ema50 := slow;
       NiftyEMATracker.crossovers := [] |}
    (NiftyEMATracker.set_data (Some d) (constructed [])).

(** Daily bars with the given closes, dated day 0, 1, 2, ... *)
Definition bars_of_closes (closes : list Q) : list NiftyEMATracker.Bar :=
  imap (fun (i : nat) (c : Q) =>
          {| NiftyEMATracker.date := Z.of_nat i;
             NiftyEMATracker.close := JNum c;
             NiftyEMATracker.high := JNum c;
             NiftyEMATracker.low := JNum c;
             NiftyEMATracker.open := JNum c;
             NiftyEMATracker.volume := JNum 1000 |}) closes.

(** The tracker after a fetch that delivered these closes. *)
Definition fetched (closes : list Q) : NiftyEMATracker.Tracker :=
  NiftyEMATracker.set_historicalData (bars_of_closes closes) (constructed []).

(** A chart payload of daily rows with the given closes, one time stamp
    per day from day 0. *)
Definition chart_of_closes (closes : list Q) : ChartResult :=
  {| meta := mkChartMeta JUndefined JUndefined JUndefined JUndefined JUndefined;
     timestamp := imap (fun (i : nat) (_ : Q) => (Z.of_nat i * 86400)%Z) closes;
     quote := {| q_close := map Some closes;
                 q_high := map Some closes;
                 q_low := map Some closes;
                 q_open := map Some closes;
                 q_volume := map (fun _ => Some 1000) closes |} |}.

(** The default thresholds with other EMA periods. *)
Definition with_periods (fast slow : Z) : NiftyEMATracker.Thresholds :=
  {| NiftyEMATracker.RSI_OVERSOLD := 30;
     NiftyEMATracker.RSI_OVERBOUGHT := 70;
     NiftyEMATracker.PE_ATTRACTIVE := 21;
     NiftyEMATracker.PE_EXPENSIVE := 25;
     NiftyEMATracker.CORRECTION_THRESHOLD := 10;
     NiftyEMATracker.ALL_TIME_HIGH := 2627735 # 100;
     NiftyEMATracker.EMA_PERIOD_20 := fast;
     NiftyEMATracker.EMA_PERIOD_50 := slow |}.

(** Seventy closes of 100, except a close of 1000 on day 49. *)
Definition spike_closes : list Q :=
  repeat 100 49 ++ [1000] ++ repeat 100 20.

(** The bar an EMA element belongs to: element [j] of an EMA of period
    [p] is the value on bar [j + p - 1], the last bar it has read.  So
    the fast and the slow value on bar [b] are these. *)
Definition fast_on (T : NiftyEMATracker.Thresholds) (fast : list Q) (b : Z) : jsval :=
  num_get fast (b - (NiftyEMATracker.EMA_PERIOD_20 T - 1)).

Definition slow_on (T : NiftyEMATracker.Thresholds) (slow : list Q) (b : Z) : jsval :=
  num_get slow (b - (NiftyEMATracker.EMA_PERIOD_50 T - 1)).

(** Crossover detection on the same bar, as the specification words it:
    bar [b] is a crossing when the fast and slow values of bars [b - 1]
    and [b] exist and the fast one moves from at-or-below to strictly
    above (bullish) or from at-or-above to strictly below (bearish). *)
Definition aligned_cross_on (T : NiftyEMATracker.Thresholds) (fast slow : list Q)
    (bars : list NiftyEMATracker.Bar) (b : Z) : option NiftyEMATracker.Crossover :=
  match fast_on T fast (b - 1), slow_on T slow (b - 1),
        fast_on T fast b, slow_on T slow b, js_get bars b with
  | JNum pf, JNum ps, JNum cf, JNum cs, Some bar =>
      let event ty :=
        {| NiftyEMATracker.c_date := NiftyEMATracker.date bar;
           NiftyEMATracker.c_type := ty;
           NiftyEMATracker.c_price := NiftyEMATracker.close bar;
           NiftyEMATracker.c_ema20 := cf;
           NiftyEMATracker.c_ema50 := cs |} in
      if js_le pf ps && js_gt cf cs then Some (event NiftyEMATracker.BULLISH_CROSS)
      else if js_ge pf ps && js_lt cf cs then Some (event NiftyEMATracker.BEARISH_CROSS)
      else None
  | _, _, _, _, _ => None
  end.

Definition aligned_crossovers (T : NiftyEMATracker.Thresholds) (fast slow : list Q)
    (bars : list NiftyEMATracker.Bar) : list NiftyEMATracker.Crossover :=
  omap (fun b : nat => aligned_cross_on T fast slow bars (Z.of_nat b))
       (seq 0 (length bars)).

(** The bar of row [index] of a chart payload, and all its rows. *)
Definition row_bar (quotes : QuoteArrays) (index : nat) (ts : Z) : NiftyEMATracker.Bar :=
  {| NiftyEMATracker.date := (ts * 1000 / 86400000)%Z;
     NiftyEMATracker.close := cell (q_close quotes) (Z.of_nat index);
     NiftyEMATracker.high := cell (q_high quotes) (Z.of_nat index);
     NiftyEMATracker.low := cell (q_low quotes) (Z.of_nat index);
     NiftyEMATracker.open := cell (q_open quotes) (Z.of_nat index);
     NiftyEMATracker.volume := cell (q_volume quotes) (Z.of_nat index) |}.

Definition rows (result : ChartResult) : list NiftyEMATracker.Bar :=
  imap (row_bar (quote result)) (timestamp result).

Definition is_number (c : option Q) : bool :=
  match c with Some _ => true | None => false end.

(** An item that the loader can get past: absent, empty, or the text of
    an entry. *)
Definition readable (key : string) (ls : NiftyEMATracker.LocalStorage) : Prop :=
  NiftyEMATracker.getItem key ls <> Some NiftyEMATracker.Unparsable.

(** An entry the loader must not use: another schema version, or an age
    at or beyond the window. *)
Definition rejected (now window : Z) (e : NiftyEMATracker.CacheEntry) : Prop :=
  NiftyEMATracker.e_version e <> NiftyEMATracker.current_version
  \/ (window <= now - NiftyEMATracker.e_timestamp e)%Z.

(** The timers are in order when the live ones are exactly the one
    [refreshInterval] holds, if any, and every live handle was given
    out before the next one. *)
Definition timers_ok (st : NiftyEMATracker.Scheduler * NiftyEMATracker.Timers) : Prop :=
  (forall (h : positive) (p : Z),
     NiftyEMATracker.live (snd st) !! h = Some p ->
     (h < NiftyEMATracker.next_handle (snd st))%positive) /\
  dom (NiftyEMATracker.live (snd st))
  = match NiftyEMATracker.refreshInterval (fst st) with
    | Some h => {[h]}
    | None => ∅
    end.


Definition last_differences (period : Z) (prices : list Q) : list Q :=
  skipn (length prices - 1 - Z.to_nat period) (NiftyTracker.changes_of prices).



(** A cache that holds successful responses only. *)
Definition all_ok (cache : gmap string ServiceWorker.Response) : Prop :=
  forall (k : string) (r : ServiceWorker.Response),
    cache !! k = Some r -> ServiceWorker.ok r = true.

(** A response that carries no [sw-cache-date] header. *)
Definition undated (r : ServiceWorker.Response) : Prop :=
  ServiceWorker.headers r !! "sw-cache-date" = None.

(** The smoothing factor of an EMA of the given period. *)
Definition smoothing (period : Z) : Q := 2 / (of_int period + 1).

(** * Properties *)

(** ** Arithmetic and list helpers *)

Lemma js_lt_iff (a b : Q) : js_lt a b = true <-> a < b.
Proof.
  unfold js_lt. rewrite negb_true_iff. split.
  - intros H. apply Qnot_le_lt. intros Hle.
    apply Qle_bool_iff in Hle. congruence.
  - intros H. destruct (Qle_bool b a) eqn:E; [|reflexivity].
    apply Qle_bool_iff in E. exfalso. exact (Qlt_not_le _ _ H E).
Qed.

Lemma js_le_iff (a b : Q) : js_le a b = true <-> a <= b.
Proof. apply Qle_bool_iff. Qed.

Lemma js_gt_iff (a b : Q) : js_gt a b = true <-> b < a.
Proof. apply js_lt_iff. Qed.

Lemma js_ge_iff (a b : Q) : js_ge a b = true <-> b <= a.
Proof. apply js_le_iff. Qed.

Lemma js_lt_false_iff (a b : Q) : js_lt a b = false <-> b <= a.
Proof.
  unfold js_lt. rewrite negb_false_iff. apply Qle_bool_iff.
Qed.

Lemma sum_reduce_from (l : list Q) (acc : Q) :
  fold_left Qplus l acc == acc + Qsum l.
Proof.
  revert acc. induction l as [|x l IH]; intros acc; simpl.
  - ring.
  - rewrite IH. ring.
Qed.

Lemma sum_reduce_Qsum (l : list Q) : sum_reduce l == Qsum l.
Proof. unfold sum_reduce. rewrite sum_reduce_from. ring. Qed.

(** ** calculateEMA *)

Import NiftyEMATracker.

Lemma ema_loop_length (k : Q) (rest : list Q) (last : Q) :
  length (ema_loop k rest last) = length rest.
Proof.
  revert last. induction rest as [|p rest IH]; intros last; simpl.
  - reflexivity.
  - now rewrite IH.
Qed.

(** Element [j + 1] of the sequence is built from input [j] of the
    second loop and from element [j]. *)
Lemma ema_loop_step (k : Q) (rest : list Q) (last : Q) (j : nat) (p : Q) :
  rest !! j = Some p ->
  exists prev,
    (last :: ema_loop k rest last) !! j = Some prev /\
    (last :: ema_loop k rest last) !! S j = Some (p * k + prev * (1 - k)).
Proof.
  revert last j. induction rest as [|q rest IH]; intros last j Hj.
  - destruct j; discriminate.
  - destruct j as [|j]; simpl in *.
    + injection Hj as ->. exists last. split; reflexivity.
    + destruct (IH (q * k + last * (1 - k)) j Hj) as (prev & H1 & H2).
      exists prev. split; assumption.
Qed.

Lemma calculateEMA_short (prices : list Q) (period : Z) :
  (Z.of_nat (length prices) < period)%Z -> calculateEMA prices period = [].
Proof.
  intros H. unfold calculateEMA.
  destruct (Z.ltb_spec (Z.of_nat (length prices)) period); [reflexivity|lia].
Qed.

Lemma calculateEMA_long (prices : list Q) (period : Z) :
  (period <= Z.of_nat (length prices))%Z ->
  calculateEMA prices period =
    let sma := sum_reduce (firstn (Z.to_nat period) prices) / of_int period in
    sma :: ema_loop (smoothing period) (skipn (Z.to_nat period) prices) sma.
Proof.
  intros H. unfold calculateEMA.
  destruct (Z.ltb_spec (Z.of_nat (length prices)) period); [lia|reflexivity].
Qed.

Lemma calculateEMA_length (prices : list Q) (period : Z) :
  (0 <= period <= Z.of_nat (length prices))%Z ->
  Z.of_nat (length (calculateEMA prices period))
  = (Z.of_nat (length prices) - period + 1)%Z.
Proof.
  intros H. rewrite calculateEMA_long by lia. simpl.
  rewrite ema_loop_length, length_skipn. lia.
Qed.

(** C4.  For a positive period: a sequence shorter than the period gives
    the empty sequence; otherwise the result has
    [len(prices) - period + 1] elements, the first is the simple average
    of the first [period] prices, and every later element [j] is
    [p*k + ema_{j-1}*(1-k)], with [k = 2/(period+1)] and [p] the price at
    index [period - 1 + j]. *)
Theorem calculateEMA_spec (prices : list Q) (period : Z) (Hpos : (0 < period)%Z) :
  ((Z.of_nat (length prices) < period)%Z -> calculateEMA prices period = []) /\
  ((period <= Z.of_nat (length prices))%Z ->
   let ema := calculateEMA prices period in
   let k := 2 / (of_int period + 1) in
   Z.of_nat (length ema) = (Z.of_nat (length prices) - period + 1)%Z /\
   (exists seed, ema !! 0%nat = Some seed /\
                 seed == simple_average (firstn (Z.to_nat period) prices)) /\
   (forall j : nat, (0 < j < length ema)%nat ->
      exists p prev,
        prices !! (Z.to_nat period - 1 + j)%nat = Some p /\
        ema !! (j - 1)%nat = Some prev /\
        ema !! j = Some (p * k + prev * (1 - k)))).
Proof.
  split; [apply calculateEMA_short|].
  intros Hlen ema k. split; [|split].
  - apply calculateEMA_length. lia.
  - subst ema. rewrite calculateEMA_long by assumption. simpl.
    eexists. split; [reflexivity|].
    unfold simple_average. rewrite sum_reduce_Qsum, length_firstn.
    assert (Hmin : Z.of_nat (Init.Nat.min (Z.to_nat period) (length prices)) = period)
      by lia.
    rewrite Hmin. reflexivity.
  - intros j Hj.
    assert (Hl : Z.of_nat (length ema) = (Z.of_nat (length prices) - period + 1)%Z)
      by (apply calculateEMA_length; lia).
    subst ema k. rewrite calculateEMA_long in * by assumption. cbv zeta in *.
    destruct j as [|j]; [lia|].
    assert (Hin : (j < length (skipn (Z.to_nat period) prices))%nat).
    { simpl in Hj. rewrite ema_loop_length in Hj. lia. }
    destruct (lookup_lt_is_Some_2 _ _ Hin) as [p Hp].
    destruct (ema_loop_step (smoothing period) _
                (sum_reduce (firstn (Z.to_nat period) prices) / of_int period)
                j p Hp) as (prev & H1 & H2).
    exists p, prev. split; [|split].
    + rewrite lookup_drop in Hp.
      replace (Z.to_nat period - 1 + S j)%nat with (Z.to_nat period + j)%nat by lia.
      exact Hp.
    + replace (S j - 1)%nat with j by lia. exact H1.
    + exact H2.
Qed.

(** A ten-price series with period 3: the hypotheses of C4 hold. *)
Lemma calculateEMA_spec_witness :
  let prices := [1; 2; 3; 4; 5; 6; 7; 8; 9; 10] in
  (0 < 3)%Z /\ (3 <= Z.of_nat (length prices))%Z /\
  Z.of_nat (length (calculateEMA prices 3)) = 8%Z.
Proof.
  intros prices. split; [lia|]. split; [simpl; lia|].
  exact (proj1 (proj2 (calculateEMA_spec prices 3 ltac:(lia)) ltac:(simpl; lia))).
Defined.

(** ** calculateRSI *)

Lemma changes_of_cons2 (a b : Q) (rest : list Q) :
  NiftyTracker.changes_of (a :: b :: rest)
  = (b - a) :: NiftyTracker.changes_of (b :: rest).
Proof. reflexivity. Qed.

Lemma changes_of_length (prices : list Q) :
  length (NiftyTracker.changes_of prices) = (length prices - 1)%nat.
Proof.
  induction prices as [|a prices IH]; [reflexivity|].
  destruct prices as [|b rest]; [reflexivity|].
  rewrite changes_of_cons2. simpl length in *. rewrite IH. lia.
Qed.

Lemma changes_of_lookup (prices : list Q) (i : nat) (c : Q) :
  NiftyTracker.changes_of prices !! i = Some c ->
  exists a b, prices !! i = Some a /\ prices !! S i = Some b /\ c = b - a.
Proof.
  revert i. induction prices as [|a prices IH]; intros i H; [discriminate|].
  destruct prices as [|b rest]; [discriminate|].
  rewrite changes_of_cons2 in H. destruct i as [|i].
  - injection H as <-. exists a, b. repeat split; reflexivity.
  - destruct (IH i H) as (a' & b' & Ha & Hb & Hc).
    exists a', b'. repeat split; assumption.
Qed.

(** What [recentChanges] holds, for a positive period. *)
Lemma recent_changes_lookup (period : Z) (prices : list Q) (j : nat) (c : Q) :
  (0 < period)%Z ->
  slice_neg period (NiftyTracker.changes_of prices) !! j = Some c ->
  exists (i : nat) (a b : Q),
    (Z.of_nat (length prices) - 1 - period <= Z.of_nat i)%Z /\
    prices !! i = Some a /\ prices !! S i = Some b /\ c = b - a.
Proof.
  intros Hpos H. unfold slice_neg in H.
  destruct (Z.ltb_spec 0 period); [|lia].
  rewrite lookup_drop in H.
  destruct (changes_of_lookup _ _ _ H) as (a & b & Ha & Hb & Hc).
  eexists _, a, b. repeat split; try eassumption.
  rewrite changes_of_length. lia.
Qed.


Lemma filter_none (A : Type) (f : A -> bool) (l : list A) :
  (forall (j : nat) (x : A), l !! j = Some x -> f x = false) ->
  List.filter f l = [].
Proof.
  induction l as [|x l IH]; intros H; [reflexivity|].
  simpl. rewrite (H 0%nat x eq_refl). apply IH.
  intros j y Hy. exact (H (S j) y Hy).
Qed.


Lemma calculateRSI_enough (prices : list Q) (period : Z) :
  (period + 1 <= Z.of_nat (length prices))%Z ->
  NiftyTracker.calculateRSI prices period =
    let recentChanges := slice_neg period (NiftyTracker.changes_of prices) in
    let gains := List.filter (fun change => js_gt change 0) recentChanges in
    let losses := map Qabs (List.filter (fun change => js_lt change 0) recentChanges) in
    let avgGain :=
      if (0 <? length gains)%nat then sum_reduce gains / of_int period else 0 in
    let avgLoss :=
      if (0 <? length losses)%nat then sum_reduce losses / of_int period else 0 in
    if Qeq_bool avgLoss 0 then 100 else 100 - (100 / (1 + avgGain / avgLoss)).
Proof.
  intros H. unfold NiftyTracker.calculateRSI.
  destruct (Z.ltb_spec (Z.of_nat (length prices)) (period + 1)); [lia|reflexivity].
Qed.

Lemma calculateRSI_no_recent_loss (prices : list Q) (period : Z) :
  (0 < period)%Z -> (period + 1 <= Z.of_nat (length prices))%Z ->
  no_recent_loss period prices ->
  NiftyTracker.calculateRSI prices period = 100.
Proof.
  intros Hpos Hlen Hno. rewrite calculateRSI_enough by assumption. cbv zeta.
  rewrite (filter_none _ (fun change => js_lt change 0)); [reflexivity|].
  intros j c Hc.
  destruct (recent_changes_lookup _ _ _ _ Hpos Hc) as (i & a & b & Hi & Ha & Hb & ->).
  apply js_lt_false_iff. exact (Hno i a b Hi Ha Hb).
Qed.

(** C5.  With at least [period + 1] prices and no strictly negative
    difference among the last [period], the RSI is exactly 100; so it is
    for a constant series and for an increasing one. *)
Theorem calculateRSI_no_loss_is_100 (prices : list Q) (period : Z)
    (Hpos : (0 < period)%Z)
    (Hlen : (period + 1 <= Z.of_nat (length prices))%Z) :
  (no_recent_loss period prices -> NiftyTracker.calculateRSI prices period = 100) /\
  (constant_series prices -> NiftyTracker.calculateRSI prices period = 100) /\
  (nondecreasing prices -> NiftyTracker.calculateRSI prices period = 100).
Proof.
  split; [|split].
  - apply calculateRSI_no_recent_loss; assumption.
  - intros [c Hc]. apply calculateRSI_no_recent_loss; try assumption.
    intros i a b _ Ha Hb. rewrite (Hc _ _ Ha), (Hc _ _ Hb). lra.
  - intros Hinc. apply calculateRSI_no_recent_loss; try assumption.
    intros i a b _ Ha Hb. specialize (Hinc i a b Ha Hb). lra.
Qed.

(** Fifteen equal closes with the default period of 14. *)
Lemma calculateRSI_no_loss_is_100_witness :
  let prices := repeat 100 15 in
  (0 < 14)%Z /\ (14 + 1 <= Z.of_nat (length prices))%Z /\
  constant_series prices /\
  NiftyTracker.calculateRSI prices 14 = 100.
Proof.
  intros prices.
  assert (Hc : constant_series prices).
  { exists 100. intros i p Hp. apply list_elem_of_lookup_2, list_elem_of_In in Hp.
    apply repeat_spec in Hp. subst p. reflexivity. }
  split; [lia|]. split; [simpl; lia|]. split; [exact Hc|].
  exact (proj1 (proj2 (calculateRSI_no_loss_is_100 prices 14
                         ltac:(lia) ltac:(simpl; lia))) Hc).
Defined.













(** ** calculateInvestmentSignals *)

Lemma calculateInvestmentSignals_total (now : Z) (t : Tracker) (d : Quote) :
  data t = Some d -> exists r, calculateInvestmentSignals now t = Some r.
Proof.
  intros H. unfold calculateInvestmentSignals. rewrite H. eexists. reflexivity.
Qed.

(** The three signals of a result, in terms of the conditions. *)
Lemma calculateInvestmentSignals_signals (now : Z) (t : Tracker) (r : SignalResult) :
  calculateInvestmentSignals now t = Some r ->
  let v := v_signal (value r) in
  let m := m_signal (momentum r) in
  (v = BUY \/ v = WAIT) /\
  (m = BUY \/ m = AVOID \/ m = WAIT) /\
  cb_signal (combined r) =
    (if is_BUY v && is_BUY m then STRONG_BUY
     else if is_BUY v || is_BUY m then BUY
     else if is_AVOID m then AVOID else WAIT).
Proof.
  unfold calculateInvestmentSignals. destruct (data t) as [d|]; [|discriminate].
  intros H. injection H as <-.
  cbn [value momentum combined v_signal m_signal cb_signal
       bullishTrend recentCross priceAboveEMAs].
  destruct (js_le _ _); destruct (js_lt (rsi d) _);
    destruct (js_lt (pe_ratio d) _);
    destruct (trend (getCurrentEMATrend now t));
    cbn; repeat split; auto.
Qed.

(** C2.  The combined signal follows the branch order: STRONG BUY when
    both signals are BUY, BUY when exactly one is, AVOID when neither is
    and momentum is AVOID, WAIT otherwise; value BUY with momentum AVOID
    gives BUY. *)
Theorem combined_signal_precedence (now : Z) (t : Tracker) (r : SignalResult)
    (H : calculateInvestmentSignals now t = Some r) :
  let v := v_signal (value r) in
  let m := m_signal (momentum r) in
  let c := cb_signal (combined r) in
  (v = BUY /\ m = BUY -> c = STRONG_BUY) /\
  ((v = BUY /\ m <> BUY) \/ (v <> BUY /\ m = BUY) -> c = BUY) /\
  (v <> BUY /\ m = AVOID -> c = AVOID) /\
  (v <> BUY /\ m <> BUY /\ m <> AVOID -> c = WAIT) /\
  (v = BUY /\ m = AVOID -> c = BUY).
Proof.
  intros v m c.
  destruct (calculateInvestmentSignals_signals now t r H) as (Hv & Hm & Hc).
  fold v m c in Hv, Hm, Hc. rewrite Hc. clearbody v m c. clear Hc.
  destruct Hv as [-> | ->]; destruct Hm as [-> | [-> | ->]]; cbn;
    repeat split; intros; intuition congruence.
Qed.

(** A snapshot 24% below the high with RSI 25 and PE 20, under a fast
    EMA below the slow one: value BUY, momentum AVOID, combined BUY. *)
Lemma combined_signal_precedence_witness :
  let t := tracker_with (snapshot 20000 25 20) [1] [2] in
  exists r,
    calculateInvestmentSignals 0 t = Some r /\
    v_signal (value r) = BUY /\ m_signal (momentum r) = AVOID /\
    cb_signal (combined r) = BUY.
Proof.
  intros t. eexists. split; [reflexivity|].
  split; [reflexivity|]. split; [reflexivity|].
  exact (proj2 (proj2 (proj2 (proj2
           (combined_signal_precedence 0 t _ eq_refl)))) (conj eq_refl eq_refl)).
Defined.

(** ** The value conditions *)

Lemma value_signal_enhanced (now : Z) (t : Tracker) (d : Quote) (r : SignalResult) :
  data t = Some d ->
  calculateInvestmentSignals now t = Some r ->
  (v_signal (value r) = BUY <->
   ((current_price d - all_time_high d) / all_time_high d) * 100
     <= - CORRECTION_THRESHOLD (THRESHOLDS t) /\
   rsi d < RSI_OVERSOLD (THRESHOLDS t) /\
   pe_ratio d < PE_ATTRACTIVE (THRESHOLDS t)) /\
  (v_signal (value r) <> BUY -> v_signal (value r) = WAIT).
Proof.
  intros Hd. unfold calculateInvestmentSignals, calculateCorrection. rewrite Hd.
  intros H. injection H as <-. cbn [value v_signal forallb vc_correction vc_rsi vc_pe].
  rewrite <- js_le_iff, <- !js_lt_iff.
  destruct (js_le _ _); destruct (js_lt (rsi d) _); destruct (js_lt (pe_ratio d) _);
    cbn; split; try tauto; try (split; [discriminate | intros (? & ? & ?); discriminate]).
Qed.

Lemma value_signal_basic (d : NiftyTracker.Data) (current_price : Q) :
  NiftyTracker.updateInvestmentSignal d
    (NiftyTracker.correctionPercent current_price (NiftyTracker.all_time_high d))
  = NiftyTracker.BUY_SIGNAL <->
  NiftyTracker.CORRECTION_THRESHOLD NiftyTracker.THRESHOLDS
    <= Qabs (((current_price - NiftyTracker.all_time_high d)
              / NiftyTracker.all_time_high d) * 100) /\
  NiftyTracker.rsi d < NiftyTracker.RSI_OVERSOLD NiftyTracker.THRESHOLDS /\
  NiftyTracker.pe_ratio d < NiftyTracker.PE_ATTRACTIVE NiftyTracker.THRESHOLDS.
Proof.
  unfold NiftyTracker.updateInvestmentSignal, NiftyTracker.conditions_of,
    NiftyTracker.correctionPercent.
  cbn [NiftyTracker.c_correction NiftyTracker.c_rsi NiftyTracker.c_pe].
  rewrite <- js_ge_iff, <- !js_lt_iff.
  destruct (js_ge _ _); destruct (js_lt (NiftyTracker.rsi d) _);
    destruct (js_lt (NiftyTracker.pe_ratio d) _);
    cbn; split; try tauto; try discriminate; intros (? & ? & ?); discriminate.
Qed.

(** C3 as stated fails on the enhanced tracker: at 30000, which is 14%
    above the all-time high, with RSI 25 and PE 20, the three conditions
    of the claim hold and the value signal is WAIT. *)
Lemma value_signal_abs_counterexample :
  let d := snapshot 30000 25 20 in
  let t := tracker_with d [1] [2] in
  (CORRECTION_THRESHOLD (THRESHOLDS t)
     <= Qabs (((current_price d - all_time_high d) / all_time_high d) * 100) /\
   rsi d < RSI_OVERSOLD (THRESHOLDS t) /\
   pe_ratio d < PE_ATTRACTIVE (THRESHOLDS t)) /\
  option_map (fun r => v_signal (value r)) (calculateInvestmentSignals 0 t) = Some WAIT.
Proof.
  cbv zeta. split; [|reflexivity].
  repeat split; vm_compute; congruence.
Qed.

(** C3, amended.  In the enhanced tracker the value signal is BUY exactly
    when the signed correction is at or below minus the threshold, the
    RSI is below the oversold bound and the PE below the attractive
    bound, and WAIT otherwise.  In the basic tracker the badge is BUY
    SIGNAL exactly when the absolute value of the correction is at or
    above the threshold and the same two bounds hold. *)
Theorem value_signal_spec :
  (forall (now : Z) (t : Tracker) (d : Quote) (r : SignalResult),
     data t = Some d ->
     ~ all_time_high d == 0 ->
     calculateInvestmentSignals now t = Some r ->
     (v_signal (value r) = BUY <->
      ((current_price d - all_time_high d) / all_time_high d) * 100
        <= - CORRECTION_THRESHOLD (THRESHOLDS t) /\
      rsi d < RSI_OVERSOLD (THRESHOLDS t) /\
      pe_ratio d < PE_ATTRACTIVE (THRESHOLDS t)) /\
     (v_signal (value r) <> BUY -> v_signal (value r) = WAIT)) /\
  (forall (d : NiftyTracker.Data) (current_price : Q),
     ~ NiftyTracker.all_time_high d == 0 ->
     NiftyTracker.updateInvestmentSignal d
       (NiftyTracker.correctionPercent current_price (NiftyTracker.all_time_high d))
     = NiftyTracker.BUY_SIGNAL <->
     NiftyTracker.CORRECTION_THRESHOLD NiftyTracker.THRESHOLDS
       <= Qabs (((current_price - NiftyTracker.all_time_high d)
                 / NiftyTracker.all_time_high d) * 100) /\
     NiftyTracker.rsi d < NiftyTracker.RSI_OVERSOLD NiftyTracker.THRESHOLDS /\
     NiftyTracker.pe_ratio d < NiftyTracker.PE_ATTRACTIVE NiftyTracker.THRESHOLDS).
Proof.
  split.
  - intros now t d r Hd _ Hr. exact (value_signal_enhanced now t d r Hd Hr).
  - intros d cp _. apply value_signal_basic.
Qed.

(** The snapshot 24% below the high with RSI 25 and PE 20: the
    hypotheses hold and the value signal is BUY. *)
Lemma value_signal_spec_witness :
  let d := snapshot 20000 25 20 in
  let t := tracker_with d [1] [2] in
  data t = Some d /\ ~ all_time_high d == 0 /\
  exists r, calculateInvestmentSignals 0 t = Some r /\ v_signal (value r) = BUY.
Proof.
  cbv zeta.
  assert (Hath : ~ all_time_high (snapshot 20000 25 20) == 0)
    by (vm_compute; congruence).
  split; [reflexivity|]. split; [exact Hath|].
  eexists. split; [reflexivity|].
  apply (proj2 (proj1 (proj1 value_signal_spec 0%Z
                         (tracker_with (snapshot 20000 25 20) [1] [2])
                         (snapshot 20000 25 20) _ eq_refl Hath eq_refl))).
  repeat split; vm_compute; congruence.
Defined.

(** ** getCurrentEMATrend *)

Lemma num_get_last (l : list Q) (x : Q) :
  last l = Some x -> num_get l (Z.of_nat (length l) - 1) = JNum x.
Proof.
  intros H. rewrite last_lookup in H. unfold num_get, js_get.
  assert (0 < length l)%nat by (destruct l; [discriminate|simpl; lia]).
  destruct (Z.ltb_spec (Z.of_nat (length l) - 1) 0); [lia|].
  replace (Z.to_nat (Z.of_nat (length l) - 1)) with (pred (length l)) by lia.
  now rewrite H.
Qed.

Lemma trend_unknown_iff (now : Z) (t : Tracker) :
  trend (getCurrentEMATrend now t) = UNKNOWN <->
  ema20 (emaData t) = [] \/ ema50 (emaData t) = [].
Proof.
  unfold getCurrentEMATrend.
  destruct (ema20 (emaData t)) as [|f fs]; [cbn; tauto|].
  destruct (ema50 (emaData t)) as [|s ss]; [cbn; tauto|].
  cbn [length Nat.eqb orb trend].
  split.
  - destruct (js_gt _ _); discriminate.
  - intros [H|H]; discriminate.
Qed.

Lemma trend_by_last (now : Z) (t : Tracker) (lastFast lastSlow : Q) :
  last (ema20 (emaData t)) = Some lastFast ->
  last (ema50 (emaData t)) = Some lastSlow ->
  trend (getCurrentEMATrend now t)
  = if js_gt lastFast lastSlow then BULLISH else BEARISH.
Proof.
  intros Hf Hs. unfold getCurrentEMATrend.
  rewrite (num_get_last _ _ Hf), (num_get_last _ _ Hs).
  destruct (ema20 (emaData t)) as [|f fs]; [discriminate|].
  destruct (ema50 (emaData t)) as [|s ss]; [discriminate|].
  reflexivity.
Qed.

(** A step on which the fast and the slow value consulted are equal
    pushes nothing. *)
Lemma crossover_step_tie (t : Tracker) (startIndex i : Z) (c20 c50 : Q) :
  num_get (ema20 (emaData t)) i = JNum c20 ->
  num_get (ema50 (emaData t))
          (i - startIndex + EMA_PERIOD_20 (THRESHOLDS t) - 1) = JNum c50 ->
  c20 == c50 ->
  crossover_step t startIndex i = Returns None.
Proof.
  intros H20 H50 Heq. unfold crossover_step. rewrite H20, H50.
  assert (Hgt : js_gt c20 c50 = false) by (apply js_lt_false_iff; lra).
  assert (Hlt : js_lt c20 c50 = false) by (apply js_lt_false_iff; lra).
  cbn [to_number]. rewrite Hgt, Hlt, !andb_false_r.
  destruct (_ || _); reflexivity.
Qed.

Lemma all_equal_100 (l : list Q) :
  forallb (fun e => Qeq_bool e 100) l = true -> Forall (fun e => e == 100) l.
Proof.
  intros H. apply Forall_forall. intros e He.
  rewrite forallb_forall in H. apply Qeq_bool_iff, H, list_elem_of_In. exact He.
Qed.

(** C7.  The trend is UNKNOWN exactly when one of the EMA sequences is
    empty; otherwise it is BULLISH when the last fast value is strictly
    above the last slow one and BEARISH when it is not, a tie included.
    A step whose fast and slow values are equal pushes no crossover.
    On 60 bars closing at 100 both sequences are 100 throughout, no
    crossover is recorded and the trend is BEARISH; the same holds on
    100 such bars, where the steps do compare equal values. *)
Theorem trend_resolver_spec :
  (forall (now : Z) (t : Tracker),
     trend (getCurrentEMATrend now t) = UNKNOWN <->
     ema20 (emaData t) = [] \/ ema50 (emaData t) = []) /\
  (forall (now : Z) (t : Tracker) (lastFast lastSlow : Q),
     last (ema20 (emaData t)) = Some lastFast ->
     last (ema50 (emaData t)) = Some lastSlow ->
     (lastSlow < lastFast -> trend (getCurrentEMATrend now t) = BULLISH) /\
     (lastFast <= lastSlow -> trend (getCurrentEMATrend now t) = BEARISH)) /\
  (forall (t : Tracker) (startIndex i : Z) (c20 c50 : Q),
     num_get (ema20 (emaData t)) i = JNum c20 ->
     num_get (ema50 (emaData t))
             (i - startIndex + EMA_PERIOD_20 (THRESHOLDS t) - 1) = JNum c50 ->
     c20 == c50 ->
     crossover_step t startIndex i = Returns None) /\
  (let t := calculateEMAs (fetched (repeat 100 60)) in
   length (ema20 (emaData t)) = 41%nat /\
   length (ema50 (emaData t)) = 11%nat /\
   Forall (fun e => e == 100) (ema20 (emaData t)) /\
   Forall (fun e => e == 100) (ema50 (emaData t)) /\
   exists t',
     detectCrossovers t = Returns t' /\
     crossovers (emaData t') = [] /\
     forall now : Z, trend (getCurrentEMATrend now t') = BEARISH) /\
  (let t := calculateEMAs (fetched (repeat 100 100)) in
   exists t',
     detectCrossovers t = Returns t' /\
     crossovers (emaData t') = [] /\
     forall now : Z, trend (getCurrentEMATrend now t') = BEARISH).
Proof.
  split; [exact trend_unknown_iff|].
  split; [|split; [exact crossover_step_tie|split]].
  - intros now t f s Hf Hs. rewrite (trend_by_last now t f s Hf Hs). split.
    + intros H. apply js_gt_iff in H. now rewrite H.
    + intros H. apply js_lt_false_iff in H. unfold js_gt. now rewrite H.
  - cbv zeta.
    split; [vm_compute; reflexivity|]. split; [vm_compute; reflexivity|].
    split; [apply all_equal_100; vm_compute; reflexivity|].
    split; [apply all_equal_100; vm_compute; reflexivity|].
    exists (calculateEMAs (fetched (repeat 100 60))).
    split; [vm_compute; reflexivity|]. split; [vm_compute; reflexivity|].
    intros now. vm_compute. reflexivity.
  - cbv zeta. exists (calculateEMAs (fetched (repeat 100 100))).
    split; [vm_compute; reflexivity|]. split; [vm_compute; reflexivity|].
    intros now. vm_compute. reflexivity.
Qed.

(** Fast [99; 100] over slow [100; 100]: a tie on the last bar. *)
Lemma trend_resolver_spec_witness :
  let t := tracker_with (snapshot 20000 25 20) [99; 100] [100; 100] in
  last (ema20 (emaData t)) = Some 100 /\
  last (ema50 (emaData t)) = Some 100 /\
  100 <= 100 /\
  trend (getCurrentEMATrend 0 t) = BEARISH.
Proof.
  intros t.
  assert (Hle : 100 <= 100) by (vm_compute; congruence).
  split; [reflexivity|]. split; [reflexivity|]. split; [exact Hle|].
  exact (proj2 (proj1 (proj2 trend_resolver_spec) 0%Z t 100 100 eq_refl eq_refl) Hle).
Defined.

(** ** detectCrossovers *)

(** With the periods 20 and 50 the loop starts at 30 and the step at
    [i] reads the fast sequence at [i] and [i - 1] and the slow one at
    [i - 11] and [i - 12]: the fast values of bars [i + 19] and
    [i + 18], the slow values of bars [i + 38] and [i + 37]. *)
Lemma crossover_step_reads (t : Tracker) (i : Z) :
  THRESHOLDS t = THRESHOLDS_default ->
  let T := THRESHOLDS t in
  let startIndex := startIndex_of T in
  startIndex = 30%Z /\
  num_get (ema20 (emaData t)) i = fast_on T (ema20 (emaData t)) (i + 19) /\
  num_get (ema20 (emaData t)) (i - 1) = fast_on T (ema20 (emaData t)) (i + 18) /\
  num_get (ema50 (emaData t)) (i - startIndex + EMA_PERIOD_20 T - 1)
    = slow_on T (ema50 (emaData t)) (i + 38) /\
  num_get (ema50 (emaData t)) (i - startIndex + EMA_PERIOD_20 T - 2)
    = slow_on T (ema50 (emaData t)) (i + 37).
Proof.
  intros HT. cbv zeta. rewrite HT. unfold fast_on, slow_on, startIndex_of.
  cbn [EMA_PERIOD_20 EMA_PERIOD_50 THRESHOLDS_default].
  repeat split; try reflexivity; f_equal; lia.
Qed.

(** The guard: a step on which one of the four values read is missing
    or zero pushes nothing. *)
Lemma crossover_step_guard (t : Tracker) (startIndex i : Z) :
  let P20 := EMA_PERIOD_20 (THRESHOLDS t) in
  truthy (num_get (ema20 (emaData t)) i) = false \/
  truthy (num_get (ema50 (emaData t)) (i - startIndex + P20 - 1)) = false \/
  truthy (num_get (ema20 (emaData t)) (i - 1)) = false \/
  truthy (num_get (ema50 (emaData t)) (i - startIndex + P20 - 2)) = false ->
  crossover_step t startIndex i = Returns None.
Proof.
  cbv zeta. intros H. unfold crossover_step.
  destruct H as [H|[H|[H|H]]]; rewrite H; cbn [negb orb];
    rewrite ?orb_true_r; reflexivity.
Qed.

Lemma truthy_false_iff (v : jsval) :
  truthy v = false <-> v = JUndefined \/ v = JNull \/ exists q, v = JNum q /\ q == 0.
Proof.
  destruct v as [| |q]; cbn.
  - split; auto.
  - split; auto.
  - rewrite negb_false_iff, Qeq_bool_iff. split.
    + intros H. right. right. exists q. split; [reflexivity|assumption].
    + intros [H|[H|(q' & H & Hq)]]; try discriminate.
      injection H as ->. assumption.
Qed.

Lemma num_get_out_of_range (l : list Q) (i : Z) :
  (i < 0 \/ Z.of_nat (length l) <= i)%Z -> num_get l i = JUndefined.
Proof.
  intros H. unfold num_get, js_get.
  destruct (Z.ltb_spec i 0); [reflexivity|].
  rewrite lookup_ge_None_2 by lia. reflexivity.
Qed.

(** A step throws only for want of a bar at its index. *)
Lemma crossover_step_returns (t : Tracker) (startIndex i : Z) :
  (0 <= i < Z.of_nat (length (historicalData t)))%Z ->
  exists r, crossover_step t startIndex i = Returns r.
Proof.
  intros Hi. unfold crossover_step.
  destruct (_ || _); [eexists; reflexivity|].
  assert (Hbar : exists bar, js_get (historicalData t) i = Some bar).
  { unfold js_get. destruct (Z.ltb_spec i 0); [lia|].
    apply lookup_lt_is_Some_2. lia. }
  destruct Hbar as [bar ->].
  destruct (_ && _); [eexists; reflexivity|].
  destruct (_ && _); eexists; reflexivity.
Qed.

Lemma crossover_loop_returns (t : Tracker) (startIndex : Z) (n : nat) (i : Z)
    (acc : list Crossover) :
  (0 <= i)%Z -> (i + Z.of_nat n <= Z.of_nat (length (historicalData t)))%Z ->
  exists cs, crossover_loop t startIndex n i acc = Returns cs.
Proof.
  revert i acc. induction n as [|n IH]; intros i acc H0 Hn.
  - eexists. reflexivity.
  - cbn [crossover_loop].
    destruct (crossover_step_returns t startIndex i ltac:(lia)) as [r ->].
    cbn. apply IH; lia.
Qed.

(** With a bar for every element of the fast sequence the detector
    returns, and touches only the crossover list. *)
Lemma detectCrossovers_returns (t : Tracker) :
  (length (ema20 (emaData t)) <= length (historicalData t))%nat ->
  exists t',
    detectCrossovers t = Returns t' /\
    data t' = data t /\
    historicalData t' = historicalData t /\
    ema20 (emaData t') = ema20 (emaData t) /\
    ema50 (emaData t') = ema50 (emaData t).
Proof.
  intros H. unfold detectCrossovers.
  destruct (_ || _); [exists t; repeat split; reflexivity|].
  assert (H1 : (1 <= startIndex_of (THRESHOLDS t))%Z) by (unfold startIndex_of; lia).
  destruct (Z.to_nat (Z.of_nat (length (ema20 (emaData t)))
                      - startIndex_of (THRESHOLDS t))) as [|n] eqn:En.
  - eexists. split; [reflexivity|]. repeat split; reflexivity.
  - destruct (crossover_loop_returns t (startIndex_of (THRESHOLDS t)) (S n)
                (startIndex_of (THRESHOLDS t)) []) as [cs Hcs]; [lia|lia|].
    rewrite Hcs. eexists. split; [reflexivity|]. repeat split; reflexivity.
Qed.

(** C1, on the code.  With the periods 20 and 50 every step pairs the
    fast value of bar [i + 19] with the slow value of bar [i + 38].  On
    seventy closes of 100 with one close of 1000 on day 49 the detector
    records a bullish crossover dated day 30, made of the fast value of
    day 49 and the slow value of day 68, where comparison on the same
    bar finds no crossover at all.  On the fast sequence [10,12,9,11]
    and the slow sequence [11,10] it compares nothing, where the pairs
    of the third and fourth day give a bullish crossover on the fourth. *)
Theorem detectCrossovers_pairs_different_bars :
  (forall (t : Tracker) (i : Z),
     THRESHOLDS t = THRESHOLDS_default ->
     num_get (ema20 (emaData t)) i
       = fast_on (THRESHOLDS t) (ema20 (emaData t)) (i + 19) /\
     num_get (ema50 (emaData t))
             (i - startIndex_of (THRESHOLDS t) + EMA_PERIOD_20 (THRESHOLDS t) - 1)
       = slow_on (THRESHOLDS t) (ema50 (emaData t)) (i + 38)) /\
  (let t := calculateEMAs (fetched spike_closes) in
   let T := THRESHOLDS t in
   exists t' c,
     detectCrossovers t = Returns t' /\
     crossovers (emaData t') = [c] /\
     c_type c = BULLISH_CROSS /\
     c_date c = 30%Z /\
     JNum (c_ema20 c) = fast_on T (ema20 (emaData t)) 49 /\
     JNum (c_ema50 c) = slow_on T (ema50 (emaData t)) 68 /\
     aligned_crossovers T (ema20 (emaData t)) (ema50 (emaData t)) (historicalData t) = []) /\
  (let fast := [10; 12; 9; 11] in
   let slow := [11; 10] in
   let t := tracker_with (snapshot 20000 25 20) fast slow in
   (exists t', detectCrossovers t = Returns t' /\ crossovers (emaData t') = []) /\
   map (fun c => (c_date c, c_type c))
       (aligned_crossovers (with_periods 1 3) fast slow (bars_of_closes fast))
   = [(3%Z, BULLISH_CROSS)]).
Proof.
  split; [|split].
  - intros t i HT.
    destruct (crossover_step_reads t i HT) as (_ & H1 & _ & H2 & _).
    split; assumption.
  - cbv zeta.
    let r := eval vm_compute in (detectCrossovers (calculateEMAs (fetched spike_closes))) in
    match r with
    | Returns ?t' =>
        exists t';
        let cs := eval vm_compute in (crossovers (emaData t')) in
        match cs with [?c] => exists c end
    end.
    repeat split; vm_compute; reflexivity.
  - cbv zeta. split; [eexists; split; reflexivity|].
    vm_compute. reflexivity.
Qed.

(** The step at index 30 of the seventy-bar series. *)
Lemma detectCrossovers_pairs_different_bars_witness :
  let t := calculateEMAs (fetched spike_closes) in
  THRESHOLDS t = THRESHOLDS_default /\
  num_get (ema20 (emaData t)) 30
    = fast_on (THRESHOLDS t) (ema20 (emaData t)) (30 + 19) /\
  num_get (ema50 (emaData t))
          (30 - startIndex_of (THRESHOLDS t) + EMA_PERIOD_20 (THRESHOLDS t) - 1)
    = slow_on (THRESHOLDS t) (ema50 (emaData t)) (30 + 38).
Proof.
  intros t. split; [reflexivity|].
  exact (proj1 detectCrossovers_pairs_different_bars t 30%Z eq_refl).
Defined.

(** C10, on the code.  A first fetch delivers the seventy-bar series
    above and the EMAs are computed; a refresh then delivers twenty
    bars.  [calculateEMAs] returns early and leaves both sequences, of
    51 and 21 elements, in place, and the detector throws on the bar of
    index 30, which the refreshed history does not have. *)
Theorem detectCrossovers_throws_without_bar :
  let first := calculateEMAs
                 (processHistoricalData (Some (chart_of_closes spike_closes))
                    (constructed [])) in
  let t := calculateEMAs
             (processHistoricalData (Some (chart_of_closes (repeat 100 20))) first) in
  length (ema20 (emaData t)) = 51%nat /\
  length (ema50 (emaData t)) = 21%nat /\
  length (historicalData t) = 20%nat /\
  detectCrossovers t = Throws TypeError.
Proof.
  cbv zeta. repeat split; vm_compute; reflexivity.
Qed.

(** ** Bars with a null close *)

Lemma map_bars_rows (quotes : QuoteArrays) (timestamps : list Z) (k : nat) :
  Forall (fun ts => valid_time ts = true) timestamps ->
  map_bars quotes timestamps (Z.of_nat k)
  = Returns (imap (fun i ts => row_bar quotes (k + i) ts) timestamps).
Proof.
  revert k. induction timestamps as [|ts rest IH]; intros k Hv; [reflexivity|].
  apply Forall_cons in Hv as [Hts Hrest].
  cbn [map_bars]. unfold bar_of, iso_date. rewrite Hts. cbn.
  replace (Z.of_nat k + 1)%Z with (Z.of_nat (S k)) by lia.
  rewrite (IH (S k) Hrest). cbn. unfold row_bar at 2.
  replace (k + 0)%nat with k by lia. do 2 f_equal.
  apply imap_ext. intros i ts' _. cbn. f_equal. lia.
Qed.

Lemma processHistoricalData_rows (result : ChartResult) (t : Tracker) :
  Forall (fun ts => valid_time ts = true) (timestamp result) ->
  try_processHistoricalData (Some result)
  = Returns (List.filter (fun item => not_null (close item)) (rows result)).
Proof.
  intros Hv. unfold try_processHistoricalData.
  rewrite (map_bars_rows _ _ 0%nat Hv). reflexivity.
Qed.

Lemma filter_not_null_spec (arr : list (option Q)) :
  map Some (filter_not_null arr) = List.filter is_number arr.
Proof.
  induction arr as [|[q|] arr IH]; cbn; [reflexivity| |assumption].
  now rewrite IH.
Qed.

(** C9.  The enhanced tracker keeps exactly the rows whose close is not
    null, in order, whatever the number of nulls, and does not fall back
    because of them; the basic tracker computes its indicators on
    exactly the closes that are not null, in order, and does not fall
    back either. *)
Theorem null_closes_are_filtered :
  (forall (result : ChartResult) (t : Tracker),
     Forall (fun ts => valid_time ts = true) (timestamp result) ->
     let t' := processHistoricalData (Some result) t in
     historicalData t'
       = List.filter (fun item => not_null (close item)) (rows result) /\
     Forall (fun item => close item <> JNull) (historicalData t') /\
     (forall (i : nat) (item : Bar),
        rows result !! i = Some item -> close item <> JNull ->
        item ∈ historicalData t')) /\
  (forall (now : Z) (result : ChartResult),
     let prices := NiftyTracker.prices_of result in
     map Some prices = List.filter is_number (q_close (quote result)) /\
     exists d,
       NiftyTracker.try_processYahooData now (Some result) = Returns d /\
       NiftyTracker.processYahooData now (Some result) = d /\
       NiftyTracker.rsi d = NiftyTracker.calculateRSI_default prices /\
       NiftyTracker.dma_200 d = NiftyTracker.calculate200DMA prices).
Proof.
  split.
  - intros result t Hv t'.
    assert (Hh : historicalData t'
                 = List.filter (fun item => not_null (close item)) (rows result)).
    { subst t'. unfold processHistoricalData.
      rewrite (processHistoricalData_rows result t Hv). reflexivity. }
    split; [exact Hh|]. rewrite Hh. split.
    + apply Forall_forall. intros item Hin.
      apply list_elem_of_In, filter_In in Hin as [_ Hnn].
      intros Hnull. rewrite Hnull in Hnn. discriminate.
    + intros i item Hi Hnn. apply list_elem_of_In, filter_In. split.
      * apply list_elem_of_In. exact (list_elem_of_lookup_2 _ _ _ Hi).
      * destruct (close item); [reflexivity|congruence|reflexivity].
  - intros now result prices. split; [apply filter_not_null_spec|].
    eexists. split; [reflexivity|]. split; [reflexivity|].
    split; reflexivity.
Qed.

(** Three rows, the second with a null close. *)
Lemma null_closes_are_filtered_witness :
  let quotes := {| q_close := [Some 100; None; Some 102];
                   q_high := [Some 101; None; Some 103];
                   q_low := [Some 99; None; Some 101];
                   q_open := [Some 100; None; Some 101];
                   q_volume := [Some 5; None; Some 7] |} in
  let result := {| meta := mkChartMeta JUndefined JUndefined JUndefined
                                       JUndefined JUndefined;
                   timestamp := [86400; 172800; 259200]%Z;
                   quote := quotes |} in
  Forall (fun ts => valid_time ts = true) (timestamp result) /\
  map date (historicalData (processHistoricalData (Some result) (constructed [])))
  = [1; 3]%Z.
Proof.
  cbv zeta.
  match goal with |- Forall _ ?l /\ _ =>
    assert (Hv : Forall (fun ts => valid_time ts = true) l)
      by (repeat constructor)
  end.
  split; [exact Hv|].
  rewrite (proj1 (proj1 null_closes_are_filtered _ (constructed []) Hv)).
  reflexivity.
Defined.

(** ** The cache *)

Lemma getItem_cacheData_eq (now : Z) (key : string) (d : CacheValue) (ls : LocalStorage) :
  full ls = false ->
  getItem key (cacheData now key d ls)
  = Some (Parsed {| e_data := d; e_timestamp := now; e_version := current_version |}).
Proof.
  intros Hf. unfold cacheData, setItem, getItem. rewrite Hf. cbn.
  apply lookup_insert_eq.
Qed.

Lemma getItem_cacheData_ne (now : Z) (key key' : string) (d : CacheValue)
    (ls : LocalStorage) :
  key <> key' ->
  getItem key' (cacheData now key d ls) = getItem key' ls.
Proof.
  intros Hne. unfold cacheData, setItem, getItem.
  destruct (full ls); [reflexivity|]. cbn. now apply lookup_insert_ne.
Qed.

Lemma usable_iff (now window : Z) (e : CacheEntry) :
  usable now window e = true <->
  e_version e = current_version /\ (now - e_timestamp e < window)%Z.
Proof.
  unfold usable. rewrite andb_true_iff, String.eqb_eq, Z.ltb_lt. reflexivity.
Qed.

Lemma rejected_not_usable (now window : Z) (e : CacheEntry) :
  rejected now window e -> usable now window e = false.
Proof.
  intros Hr. destruct (usable now window e) eqn:E; [|reflexivity].
  apply usable_iff in E as [Hv Ha]. destruct Hr as [Hr|Hr]; [congruence|lia].
Qed.

Lemma usable_own_entry (t0 t1 window : Z) (d : CacheValue) :
  (t1 - t0 < window)%Z ->
  usable t1 window {| e_data := d; e_timestamp := t0; e_version := current_version |}
  = true.
Proof. intros H. apply usable_iff. split; [reflexivity|exact H]. Qed.

(** Each block assigns at most its own field, and throws only on an
    unparsable item. *)
Lemma load_current_frame (now : Z) (item : option Stored) (t : Tracker) :
  item <> Some Unparsable ->
  exists t', load_current now item t = Returns t' /\
             historicalData t' = historicalData t /\ emaData t' = emaData t.
Proof.
  intros Hr. unfold load_current.
  destruct item as [[| |e]|]; try congruence; cbn;
    try (eexists; split; [reflexivity|split; reflexivity]).
  destruct (usable _ _ _); [destruct (e_data e)|];
    eexists; (split; [reflexivity|split; reflexivity]).
Qed.

Lemma load_historical_frame (now : Z) (item : option Stored) (t : Tracker) :
  item <> Some Unparsable ->
  exists t', load_historical now item t = Returns t' /\
             data t' = data t /\ emaData t' = emaData t.
Proof.
  intros Hr. unfold load_historical.
  destruct item as [[| |e]|]; try congruence; cbn;
    try (eexists; split; [reflexivity|split; reflexivity]).
  destruct (usable _ _ _); [destruct (e_data e)|];
    eexists; (split; [reflexivity|split; reflexivity]).
Qed.

Lemma load_ema_frame (now : Z) (item : option Stored) (t t' : Tracker) :
  load_ema now item t = Returns t' ->
  data t' = data t /\ historicalData t' = historicalData t.
Proof.
  unfold load_ema.
  destruct item as [[| |e]|]; cbn; try discriminate;
    try (intros H; injection H as <-; split; reflexivity).
  destruct (usable _ _ _); [destruct (e_data e)|];
    intros H; injection H as <-; split; reflexivity.
Qed.

Lemma load_historical_frame' (now : Z) (item : option Stored) (t t' : Tracker) :
  load_historical now item t = Returns t' ->
  data t' = data t /\ emaData t' = emaData t.
Proof.
  unfold load_historical.
  destruct item as [[| |e]|]; cbn; try discriminate;
    try (intros H; injection H as <-; split; reflexivity).
  destruct (usable _ _ _); [destruct (e_data e)|];
    intros H; injection H as <-; split; reflexivity.
Qed.

Lemma load_current_frame' (now : Z) (item : option Stored) (t t' : Tracker) :
  load_current now item t = Returns t' ->
  historicalData t' = historicalData t /\ emaData t' = emaData t.
Proof.
  unfold load_current.
  destruct item as [[| |e]|]; cbn; try discriminate;
    try (intros H; injection H as <-; split; reflexivity).
  destruct (usable _ _ _); [destruct (e_data e)|];
    intros H; injection H as <-; split; reflexivity.
Qed.

(** A rejected entry is not assigned by its block. *)
Lemma load_current_rejected (now : Z) (e : CacheEntry) (t : Tracker) :
  rejected now 600000 e -> load_current now (Some (Parsed e)) t = Returns t.
Proof.
  intros Hr. unfold load_current. cbn. now rewrite (rejected_not_usable _ _ _ Hr).
Qed.

Lemma load_historical_rejected (now : Z) (e : CacheEntry) (t : Tracker) :
  rejected now 3600000 e -> load_historical now (Some (Parsed e)) t = Returns t.
Proof.
  intros Hr. unfold load_historical. cbn. now rewrite (rejected_not_usable _ _ _ Hr).
Qed.

Lemma load_ema_rejected (now : Z) (e : CacheEntry) (t : Tracker) :
  rejected now 3600000 e -> load_ema now (Some (Parsed e)) t = Returns t.
Proof.
  intros Hr. unfold load_ema. cbn. now rewrite (rejected_not_usable _ _ _ Hr).
Qed.

(** What [loadCachedData] leaves in each field. *)
Lemma loadCachedData_data (now : Z) (ls : LocalStorage) (t : Tracker) :
  data (loadCachedData now ls t)
  = match load_current now (getItem "nifty_current" ls) t with
    | Returns t1 => data t1
    | Throws _ => data t
    end.
Proof.
  unfold loadCachedData.
  destruct (load_current now _ t) as [t1|]; [|reflexivity].
  destruct (load_historical now _ t1) as [t2|] eqn:E2; [|reflexivity].
  apply load_historical_frame' in E2 as [Hd _].
  destruct (load_ema now _ t2) as [t3|] eqn:E3; [|exact Hd].
  apply load_ema_frame in E3 as [Hd3 _]. congruence.
Qed.

Lemma loadCachedData_historicalData (now : Z) (ls : LocalStorage) (t : Tracker) :
  historicalData (loadCachedData now ls t)
  = match load_current now (getItem "nifty_current" ls) t with
    | Returns t1 =>
        match load_historical now (getItem "nifty_historical" ls) t1 with
        | Returns t2 => historicalData t2
        | Throws _ => historicalData t
        end
    | Throws _ => historicalData t
    end.
Proof.
  unfold loadCachedData.
  destruct (load_current now _ t) as [t1|] eqn:E1; [|reflexivity].
  apply load_current_frame' in E1 as [Hh _].
  destruct (load_historical now _ t1) as [t2|] eqn:E2; [|exact Hh].
  destruct (load_ema now _ t2) as [t3|] eqn:E3; [|reflexivity].
  apply load_ema_frame in E3 as [_ Hh3]. exact Hh3.
Qed.

Lemma loadCachedData_emaData (now : Z) (ls : LocalStorage) (t : Tracker) :
  emaData (loadCachedData now ls t)
  = match load_current now (getItem "nifty_current" ls) t with
    | Returns t1 =>
        match load_historical now (getItem "nifty_historical" ls) t1 with
        | Returns t2 =>
            match load_ema now (getItem "nifty_ema" ls) t2 with
            | Returns t3 => emaData t3
            | Throws _ => emaData t
            end
        | Throws _ => emaData t
        end
    | Throws _ => emaData t
    end.
Proof.
  unfold loadCachedData.
  destruct (load_current now _ t) as [t1|] eqn:E1; [|reflexivity].
  apply load_current_frame' in E1 as [_ He].
  destruct (load_historical now _ t1) as [t2|] eqn:E2; [|exact He].
  apply load_historical_frame' in E2 as [_ He2].
  destruct (load_ema now _ t2) as [t3|] eqn:E3; [reflexivity|congruence].
Qed.

(** A block installs the entry [cacheData] wrote for it, inside the
    window. *)
Lemma load_current_own (t0 t1 : Z) (d : option Quote) (t : Tracker) :
  (t1 - t0 < 600000)%Z ->
  load_current t1
    (Some (Parsed {| e_data := VQuote d; e_timestamp := t0;
                     e_version := current_version |})) t
  = Returns (set_data d t).
Proof.
  intros Hw. unfold load_current, JSON_parse, mbind, outcome_bind.
  now rewrite usable_own_entry.
Qed.

Lemma load_historical_own (t0 t1 : Z) (bs : list Bar) (t : Tracker) :
  (t1 - t0 < 3600000)%Z ->
  load_historical t1
    (Some (Parsed {| e_data := VBars bs; e_timestamp := t0;
                     e_version := current_version |})) t
  = Returns (set_historicalData bs t).
Proof.
  intros Hw. unfold load_historical, JSON_parse, mbind, outcome_bind.
  now rewrite usable_own_entry.
Qed.

Lemma load_ema_own (t0 t1 : Z) (e : EmaData) (t : Tracker) :
  (t1 - t0 < 3600000)%Z ->
  load_ema t1
    (Some (Parsed {| e_data := VEma e; e_timestamp := t0;
                     e_version := current_version |})) t
  = Returns (set_emaData e t).
Proof.
  intros Hw. unfold load_ema, JSON_parse, mbind, outcome_bind.
  now rewrite usable_own_entry.
Qed.

(** C8 as stated fails in two ways.  When the item read first does not
    parse, bars that were stored are not installed by a load one second
    later under the same schema version.  When localStorage is full the
    quote is not stored at all, and the load finds nothing. *)
Lemma cache_round_trip_counterexample :
  (let ls := {| items := {["nifty_current" := Unparsable]}; full := false |} in
   let bars := bars_of_closes [100; 101] in
   let stored := cacheData 1000 "nifty_historical" (VBars bars) ls in
   getItem "nifty_historical" stored
     = Some (Parsed {| e_data := VBars bars; e_timestamp := 1000;
                       e_version := current_version |}) /\
   (2000 - 1000 < 3600000)%Z /\
   historicalData (loadCachedData 2000 stored (constructed [])) = [] /\
   bars <> []) /\
  (let ls := {| items := ∅; full := true |} in
   let d := Some (snapshot 20000 25 20) in
   let stored := cacheData 1000 "nifty_current" (VQuote d) ls in
   (2000 - 1000 < 600000)%Z /\
   data (loadCachedData 2000 stored (constructed [])) = None /\
   d <> None).
Proof.
  split; cbv zeta.
  - split; [apply getItem_cacheData_eq; reflexivity|].
    split; [lia|]. split; [|discriminate].
    rewrite loadCachedData_historicalData.
    rewrite getItem_cacheData_ne by discriminate. reflexivity.
  - split; [lia|]. split; [|discriminate].
    rewrite loadCachedData_data. reflexivity.
Qed.

(** C8, amended.  When localStorage accepts the write and the items the
    loader reads before the one written are readable, a value stored by
    [cacheData] under its key and loaded within the window of its kind
    (10 minutes for the quote, 1 hour for the bars and for the EMA
    bundle) is installed as it was stored.  An entry of another schema
    version, or of an age at or beyond its window, is never installed. *)
Theorem cache_round_trip :
  (forall (t0 t1 : Z) (d : option Quote) (ls : LocalStorage) (t : Tracker),
     full ls = false ->
     (t1 - t0 < 600000)%Z ->
     data (loadCachedData t1 (cacheData t0 "nifty_current" (VQuote d) ls) t) = d) /\
  (forall (t0 t1 : Z) (bs : list Bar) (ls : LocalStorage) (t : Tracker),
     full ls = false ->
     readable "nifty_current" ls ->
     (t1 - t0 < 3600000)%Z ->
     historicalData
       (loadCachedData t1 (cacheData t0 "nifty_historical" (VBars bs) ls) t) = bs) /\
  (forall (t0 t1 : Z) (e : EmaData) (ls : LocalStorage) (t : Tracker),
     full ls = false ->
     readable "nifty_current" ls ->
     readable "nifty_historical" ls ->
     (t1 - t0 < 3600000)%Z ->
     emaData (loadCachedData t1 (cacheData t0 "nifty_ema" (VEma e) ls) t) = e) /\
  (forall (now : Z) (ls : LocalStorage) (t : Tracker) (e : CacheEntry),
     getItem "nifty_current" ls = Some (Parsed e) ->
     rejected now 600000 e ->
     data (loadCachedData now ls t) = data t) /\
  (forall (now : Z) (ls : LocalStorage) (t : Tracker) (e : CacheEntry),
     getItem "nifty_historical" ls = Some (Parsed e) ->
     rejected now 3600000 e ->
     historicalData (loadCachedData now ls t) = historicalData t) /\
  (forall (now : Z) (ls : LocalStorage) (t : Tracker) (e : CacheEntry),
     getItem "nifty_ema" ls = Some (Parsed e) ->
     rejected now 3600000 e ->
     emaData (loadCachedData now ls t) = emaData t).
Proof.
  repeat apply conj.
  - intros t0 t1 d ls t Hf Hw.
    rewrite loadCachedData_data, getItem_cacheData_eq by assumption.
    now rewrite (load_current_own t0 t1 d t Hw).
  - intros t0 t1 bs ls t Hf Hc Hw.
    rewrite loadCachedData_historicalData.
    rewrite (getItem_cacheData_ne _ "nifty_historical" "nifty_current") by discriminate.
    destruct (load_current_frame t1 _ t Hc) as (t' & -> & _ & _).
    rewrite getItem_cacheData_eq by assumption.
    now rewrite (load_historical_own t0 t1 bs t' Hw).
  - intros t0 t1 e ls t Hf Hc Hh Hw.
    rewrite loadCachedData_emaData.
    rewrite (getItem_cacheData_ne _ "nifty_ema" "nifty_current") by discriminate.
    rewrite (getItem_cacheData_ne _ "nifty_ema" "nifty_historical") by discriminate.
    destruct (load_current_frame t1 _ t Hc) as (t' & -> & _ & _).
    destruct (load_historical_frame t1 _ t' Hh) as (t'' & -> & _ & _).
    rewrite getItem_cacheData_eq by assumption.
    now rewrite (load_ema_own t0 t1 e t'' Hw).
  - intros now ls t e Hi Hr.
    rewrite loadCachedData_data, Hi, load_current_rejected by assumption.
    reflexivity.
  - intros now ls t e Hi Hr.
    rewrite loadCachedData_historicalData, Hi.
    destruct (load_current now _ t) as [t1|] eqn:E1; [|reflexivity].
    apply load_current_frame' in E1 as [Hh _].
    rewrite load_historical_rejected by assumption. exact Hh.
  - intros now ls t e Hi Hr.
    rewrite loadCachedData_emaData, Hi.
    destruct (load_current now _ t) as [t1|] eqn:E1; [|reflexivity].
    apply load_current_frame' in E1 as [_ He1].
    destruct (load_historical now _ t1) as [t2|] eqn:E2; [|reflexivity].
    apply load_historical_frame' in E2 as [_ He2].
    rewrite load_ema_rejected by assumption. congruence.
Qed.

(** An empty store that accepts writes: two bars cached at second 1 and
    loaded at second 2 come back; cached under version 2.0 and loaded
    after the hour they are not installed. *)
Lemma cache_round_trip_witness :
  let ls := {| items := ∅; full := false |} in
  let bars := bars_of_closes [100; 101] in
  let stored := cacheData 1000 "nifty_historical" (VBars bars) ls in
  full ls = false /\ readable "nifty_current" ls /\ (2000 - 1000 < 3600000)%Z /\
  historicalData (loadCachedData 2000 stored (constructed [])) = bars /\
  historicalData (loadCachedData 3601000 stored (constructed [])) = [].
Proof.
  cbv zeta.
  assert (Hr : readable "nifty_current" {| items := ∅; full := false |})
    by (unfold readable, getItem; cbn; rewrite lookup_empty; discriminate).
  split; [reflexivity|]. split; [exact Hr|]. split; [lia|]. split.
  - exact (proj1 (proj2 cache_round_trip) 1000%Z 2000%Z _
             {| items := ∅; full := false |} _ eq_refl Hr ltac:(lia)).
  - refine (proj1 (proj2 (proj2 (proj2 (proj2 cache_round_trip))))
              3601000%Z _ (constructed []) _ _ _).
    + apply getItem_cacheData_eq. reflexivity.
    + right. cbn. lia.
Defined.

(** * Further properties of the code *)

(** ** calculateEMAs and detectCrossovers together *)

(** X1.  With fewer than 50 bars [calculateEMAs] changes nothing, so
    EMA sequences computed earlier stay; with [n >= 50] bars and the
    periods 20 and 50 it leaves [n - 19] fast and [n - 49] slow values
    and touches neither the history, the snapshot nor the crossover
    list. *)
Theorem calculateEMAs_lengths (t : Tracker)
    (HT : THRESHOLDS t = THRESHOLDS_default) :
  ((length (historicalData t) < 50)%nat -> calculateEMAs t = t) /\
  ((50 <= length (historicalData t))%nat ->
   let t' := calculateEMAs t in
   length (ema20 (emaData t')) = (length (historicalData t) - 19)%nat /\
   length (ema50 (emaData t')) = (length (historicalData t) - 49)%nat /\
   historicalData t' = historicalData t /\
   data t' = data t /\
   crossovers (emaData t') = crossovers (emaData t)).
Proof.
  unfold calculateEMAs. split.
  - intros H. destruct (Nat.ltb_spec (length (historicalData t)) 50); [reflexivity|lia].
  - intros H. destruct (Nat.ltb_spec (length (historicalData t)) 50); [lia|].
    cbv zeta. rewrite HT. cbn [set_emaData emaData ema20 ema50 crossovers
                               historicalData data EMA_PERIOD_20 EMA_PERIOD_50
                               THRESHOLDS_default].
    pose proof (calculateEMA_length
                  (map (fun item => to_number (close item)) (historicalData t)) 20) as H20.
    pose proof (calculateEMA_length
                  (map (fun item => to_number (close item)) (historicalData t)) 50) as H50.
    rewrite length_map in H20, H50.
    repeat split; try reflexivity; lia.
Qed.

Lemma calculateEMAs_lengths_witness :
  let t := fetched (repeat 100 60) in
  THRESHOLDS t = THRESHOLDS_default /\
  (50 <= length (historicalData t))%nat /\
  length (ema20 (emaData (calculateEMAs t))) = (length (historicalData t) - 19)%nat.
Proof.
  intros t.
  assert (Hn : (50 <= length (historicalData t))%nat) by (vm_compute; lia).
  split; [reflexivity|]. split; [exact Hn|].
  exact (proj1 (proj2 (calculateEMAs_lengths t eq_refl) Hn)).
Defined.

(** X2.  After [calculateEMAs] on a history of at least 50 bars the
    detector returns: it throws only on EMA sequences left over from a
    longer history. *)
Theorem detectCrossovers_after_calculateEMAs (t : Tracker)
    (HT : THRESHOLDS t = THRESHOLDS_default)
    (Hn : (50 <= length (historicalData t))%nat) :
  exists t',
    detectCrossovers (calculateEMAs t) = Returns t' /\
    data t' = data t /\
    historicalData t' = historicalData t /\
    ema20 (emaData t') = ema20 (emaData (calculateEMAs t)) /\
    ema50 (emaData t') = ema50 (emaData (calculateEMAs t)).
Proof.
  destruct (calculateEMAs_lengths t HT) as [_ H]. specialize (H Hn). cbv zeta in H.
  destruct H as (H20 & _ & Hh & Hd & _).
  destruct (detectCrossovers_returns (calculateEMAs t)) as (t' & Hr & Hd' & Hh' & He20 & He50).
  { rewrite H20, Hh. lia. }
  exists t'. rewrite Hd', Hh', Hd, Hh. repeat split; assumption.
Qed.

Lemma detectCrossovers_after_calculateEMAs_witness :
  let t := fetched spike_closes in
  THRESHOLDS t = THRESHOLDS_default /\
  (50 <= length (historicalData t))%nat /\
  exists t', detectCrossovers (calculateEMAs t) = Returns t'.
Proof.
  intros t.
  assert (Hn : (50 <= length (historicalData t))%nat) by (vm_compute; lia).
  split; [reflexivity|]. split; [exact Hn|].
  destruct (detectCrossovers_after_calculateEMAs t eq_refl Hn) as (t' & H & _).
  exists t'. exact H.
Defined.

(** A loop all of whose steps push nothing returns the list it was
    given. *)
Lemma crossover_loop_idle (t : Tracker) (startIndex : Z) (n : nat) (i : Z)
    (acc : list Crossover) :
  (forall j : Z, (i <= j < i + Z.of_nat n)%Z ->
                 crossover_step t startIndex j = Returns None) ->
  crossover_loop t startIndex n i acc = Returns acc.
Proof.
  revert i acc. induction n as [|n IH]; intros i acc H; [reflexivity|].
  cbn [crossover_loop]. rewrite (H i) by lia. cbn. apply IH.
  intros j Hj. apply H. lia.
Qed.

(** X3.  With the periods 20 and 50 the first step reads the slow
    sequence at index 19, so a slow sequence of at most 19 values (a
    history of at most 68 bars) yields no crossover: the list is
    emptied when both sequences have two values or more, and left as
    it was otherwise. *)
Theorem detectCrossovers_needs_69_bars (t : Tracker)
    (HT : THRESHOLDS t = THRESHOLDS_default)
    (Hslow : (length (ema50 (emaData t)) <= 19)%nat) :
  exists t',
    detectCrossovers t = Returns t' /\
    crossovers (emaData t')
    = if (length (ema20 (emaData t)) <? 2)%nat || (length (ema50 (emaData t)) <? 2)%nat
      then crossovers (emaData t) else [].
Proof.
  unfold detectCrossovers.
  assert (E20 : (Z.of_nat (length (ema20 (emaData t))) <? 2)%Z
                = (length (ema20 (emaData t)) <? 2)%nat).
  { destruct (Z.ltb_spec (Z.of_nat (length (ema20 (emaData t)))) 2);
      destruct (Nat.ltb_spec (length (ema20 (emaData t))) 2); (reflexivity || lia). }
  assert (E50 : (Z.of_nat (length (ema50 (emaData t))) <? 2)%Z
                = (length (ema50 (emaData t)) <? 2)%nat).
  { destruct (Z.ltb_spec (Z.of_nat (length (ema50 (emaData t)))) 2);
      destruct (Nat.ltb_spec (length (ema50 (emaData t))) 2); (reflexivity || lia). }
  rewrite E20, E50.
  destruct (_ || _); [exists t; split; reflexivity|].
  rewrite crossover_loop_idle.
  - eexists. split; reflexivity.
  - intros j Hj. apply crossover_step_guard. right. left.
    rewrite num_get_out_of_range; [reflexivity|].
    right. rewrite HT. unfold startIndex_of in *. rewrite HT in Hj.
    cbn [EMA_PERIOD_20 EMA_PERIOD_50 THRESHOLDS_default] in *. lia.
Qed.

Lemma detectCrossovers_needs_69_bars_witness :
  let t := calculateEMAs (fetched (repeat 100 60)) in
  THRESHOLDS t = THRESHOLDS_default /\
  (length (ema50 (emaData t)) <= 19)%nat /\
  exists t', detectCrossovers t = Returns t' /\ crossovers (emaData t') = [].
Proof.
  intros t.
  assert (Hs : (length (ema50 (emaData t)) <= 19)%nat) by (vm_compute; lia).
  split; [reflexivity|]. split; [exact Hs|].
  destruct (detectCrossovers_needs_69_bars t eq_refl Hs) as (t' & H1 & H2).
  exists t'. split; [exact H1|]. rewrite H2. vm_compute. reflexivity.
Defined.

(** ** What a recorded crossover is made of *)

Lemma truthy_number (v : jsval) :
  truthy v = true -> exists q, v = JNum q /\ ~ q == 0.
Proof.
  destruct v as [| |q]; cbn; try discriminate.
  intros H. exists q. split; [reflexivity|].
  apply negb_true_iff, Qeq_bool_neq in H. exact H.
Qed.

(** A step that pushes an event: the bar of its index exists, and the
    event carries that bar's date and close and the two current values,
    which are not zero and stand in the order the type says. *)
Lemma crossover_step_event (t : Tracker) (startIndex i : Z) (c : Crossover) :
  crossover_step t startIndex i = Returns (Some c) ->
  exists (bar : Bar) (p20 p50 : Q),
    js_get (historicalData t) i = Some bar /\
    c_date c = date bar /\ c_price c = close bar /\
    num_get (ema20 (emaData t)) i = JNum (c_ema20 c) /\
    num_get (ema50 (emaData t))
            (i - startIndex + EMA_PERIOD_20 (THRESHOLDS t) - 1) = JNum (c_ema50 c) /\
    num_get (ema20 (emaData t)) (i - 1) = JNum p20 /\
    num_get (ema50 (emaData t))
            (i - startIndex + EMA_PERIOD_20 (THRESHOLDS t) - 2) = JNum p50 /\
    ~ c_ema20 c == 0 /\ ~ c_ema50 c == 0 /\
    ((c_type c = BULLISH_CROSS /\ p20 <= p50 /\ c_ema50 c < c_ema20 c) \/
     (c_type c = BEARISH_CROSS /\ p50 <= p20 /\ c_ema20 c < c_ema50 c)).
Proof.
  unfold crossover_step.
  destruct (truthy (num_get (ema20 (emaData t)) i)) eqn:T1; [|discriminate].
  destruct (truthy (num_get (ema50 (emaData t)) _)) eqn:T2; [|discriminate].
  destruct (truthy (num_get (ema20 (emaData t)) (i - 1))) eqn:T3; [|discriminate].
  destruct (truthy (num_get (ema50 (emaData t))
                      (i - startIndex + EMA_PERIOD_20 (THRESHOLDS t) - 2))) eqn:T4;
    [|discriminate].
  cbn [negb orb].
  apply truthy_number in T1 as (c20 & -> & N20).
  apply truthy_number in T2 as (c50 & -> & N50).
  apply truthy_number in T3 as (q20 & -> & _).
  apply truthy_number in T4 as (q50 & -> & _).
  cbn [to_number].
  destruct (js_le q20 q50 && js_gt c20 c50) eqn:Eb.
  - apply andb_true_iff in Eb as [E1 E2].
    apply js_le_iff in E1. apply js_gt_iff in E2.
    destruct (js_get (historicalData t) i) as [bar|]; [|discriminate].
    intros H. injection H as <-. exists bar, q20, q50. cbn.
    repeat split; try reflexivity; try assumption. left. repeat split; assumption.
  - destruct (js_ge q20 q50 && js_lt c20 c50) eqn:Es; [|discriminate].
    apply andb_true_iff in Es as [E1 E2].
    apply js_ge_iff in E1. apply js_lt_iff in E2.
    destruct (js_get (historicalData t) i) as [bar|]; [|discriminate].
    intros H. injection H as <-. exists bar, q20, q50. cbn.
    repeat split; try reflexivity; try assumption. right. repeat split; assumption.
Qed.

(** The loop appends, in index order, the events of the steps that
    push one. *)
Lemma crossover_loop_events (t : Tracker) (startIndex : Z) (n : nat) (i : Z)
    (acc cs : list Crossover) :
  crossover_loop t startIndex n i acc = Returns cs ->
  exists evs : list (Z * Crossover),
    cs = acc ++ map snd evs /\
    Forall (fun ev => (i <= fst ev < i + Z.of_nat n)%Z /\
                      crossover_step t startIndex (fst ev) = Returns (Some (snd ev))) evs /\
    StronglySorted Z.lt (map fst evs).
Proof.
  revert i acc cs. induction n as [|n IH]; intros i acc cs H.
  - cbn in H. injection H as <-. exists []. cbn. rewrite app_nil_r.
    repeat split; constructor.
  - cbn [crossover_loop] in H.
    destruct (crossover_step t startIndex i) as [[c|]|e] eqn:Es; cbn in H;
      [| |discriminate].
    + destruct (IH _ _ _ H) as (evs & -> & Hall & Hs).
      exists ((i, c) :: evs). cbn. rewrite <- app_assoc. split; [reflexivity|].
      split.
      * constructor; [cbn; split; [lia|exact Es]|].
        eapply Forall_impl; [exact Hall|]. cbn. intros ev [Hr He]. split; [lia|exact He].
      * constructor; [exact Hs|].
        apply Forall_forall. intros j Hj.
        apply list_elem_of_In, in_map_iff in Hj as (ev & <- & Hin).
        rewrite Forall_forall in Hall.
        apply list_elem_of_In in Hin. destruct (Hall ev Hin) as [Hr _]. lia.
    + destruct (IH _ _ _ H) as (evs & -> & Hall & Hs).
      exists evs. split; [reflexivity|]. split; [|exact Hs].
      eapply Forall_impl; [exact Hall|]. cbn. intros ev [Hr He]. split; [lia|exact He].
Qed.

(** X4.  When the detector has run its loop, the crossovers it records
    are the events of steps at strictly increasing indices; each one
    carries the date and the close of the bar at its index, two values
    that are not zero, the fast one strictly above the slow one for a
    bullish crossover and strictly below for a bearish one. *)
Theorem detectCrossovers_records (t t' : Tracker)
    (Hlong : (2 <= length (ema20 (emaData t)))%nat /\ (2 <= length (ema50 (emaData t)))%nat)
    (Hrun : detectCrossovers t = Returns t') :
  exists evs : list (Z * Crossover),
    crossovers (emaData t') = map snd evs /\
    StronglySorted Z.lt (map fst evs) /\
    Forall (fun ev =>
              let '(i, c) := ev in
              (startIndex_of (THRESHOLDS t) <= i < Z.of_nat (length (ema20 (emaData t))))%Z /\
              (exists bar, js_get (historicalData t) i = Some bar /\
                           c_date c = date bar /\ c_price c = close bar) /\
              num_get (ema20 (emaData t)) i = JNum (c_ema20 c) /\
              ~ c_ema20 c == 0 /\ ~ c_ema50 c == 0 /\
              match c_type c with
              | BULLISH_CROSS => c_ema50 c < c_ema20 c
              | BEARISH_CROSS => c_ema20 c < c_ema50 c
              end) evs.
Proof.
  destruct Hlong as [H20 H50]. unfold detectCrossovers in Hrun.
  destruct (Z.ltb_spec (Z.of_nat (length (ema20 (emaData t)))) 2); [lia|].
  destruct (Z.ltb_spec (Z.of_nat (length (ema50 (emaData t)))) 2); [lia|].
  cbn [orb] in Hrun.
  destruct (crossover_loop t _ _ _ []) as [cs|] eqn:El; [|discriminate].
  cbn in Hrun. injection Hrun as <-.
  destruct (crossover_loop_events _ _ _ _ _ _ El) as (evs & -> & Hall & Hs).
  exists evs. cbn. split; [reflexivity|]. split; [exact Hs|].
  eapply Forall_impl; [exact Hall|]. intros [i c] [Hr He]. cbn in Hr, He.
  destruct (crossover_step_event _ _ _ _ He)
    as (bar & p20 & p50 & Hb & Hd & Hp & Hc20 & _ & _ & _ & N20 & N50 & Hty).
  assert (H1 : (1 <= startIndex_of (THRESHOLDS t))%Z) by (unfold startIndex_of; lia).
  split; [lia|]. split; [exists bar; repeat split; assumption|].
  split; [exact Hc20|]. split; [exact N20|]. split; [exact N50|].
  destruct Hty as [(-> & _ & Hlt)|(-> & _ & Hlt)]; exact Hlt.
Qed.

Lemma detectCrossovers_records_witness :
  let t := calculateEMAs (fetched spike_closes) in
  ((2 <= length (ema20 (emaData t)))%nat /\ (2 <= length (ema50 (emaData t)))%nat) /\
  exists (t' : Tracker) (evs : list (Z * Crossover)),
    detectCrossovers t = Returns t' /\ crossovers (emaData t') = map snd evs.
Proof.
  intros t.
  assert (Hl : (2 <= length (ema20 (emaData t)))%nat /\ (2 <= length (ema50 (emaData t)))%nat)
    by (split; vm_compute; lia).
  split; [exact Hl|].
  destruct (detectCrossovers t) as [t'|] eqn:E; [|vm_compute in E; discriminate].
  destruct (detectCrossovers_records t t' Hl E) as (evs & H & _).
  exists t', evs. split; [reflexivity|exact H].
Defined.

(** ** The trend state and the momentum strategy *)

Lemma days_lt_iff (now day k : Z) :
  ((now - day * ms_per_day) / ms_per_day < k)%Z <-> (now < (day + k) * ms_per_day)%Z.
Proof.
  assert (Hms : (0 < ms_per_day)%Z) by reflexivity.
  split; intros H.
  - destruct (Z.lt_ge_cases now ((day + k) * ms_per_day)) as [Hlt|Hge]; [exact Hlt|].
    exfalso.
    assert (k <= (now - day * ms_per_day) / ms_per_day)%Z
      by (apply Z.div_le_lower_bound; lia).
    lia.
  - apply Z.div_lt_upper_bound; lia.
Qed.

Lemma last_by_index (A : Type) (l : list A) :
  (if (0 <? length l)%nat then js_get l (Z.of_nat (length l) - 1) else None) = last l.
Proof.
  rewrite last_lookup. destruct l as [|x l]; [reflexivity|].
  cbn [length Nat.ltb Nat.leb]. unfold js_get.
  destruct (Z.ltb_spec (Z.of_nat (S (length l)) - 1) 0); [lia|].
  f_equal. lia.
Qed.

(** The trend state when both sequences have a value. *)
Lemma trend_state_known (now : Z) (t : Tracker) :
  ema20 (emaData t) <> [] -> ema50 (emaData t) <> [] ->
  lastCrossover (getCurrentEMATrend now t) = last (crossovers (emaData t)) /\
  daysSinceCross (getCurrentEMATrend now t)
  = (fun c => ((now - c_date c * ms_per_day) / ms_per_day)%Z)
      <$> last (crossovers (emaData t)).
Proof.
  intros H20 H50. unfold getCurrentEMATrend.
  destruct (ema20 (emaData t)) as [|f fs]; [congruence|].
  destruct (ema50 (emaData t)) as [|s ss]; [congruence|].
  cbn [length Nat.eqb orb lastCrossover daysSinceCross].
  rewrite last_by_index. destruct (last _); split; reflexivity.
Qed.

Lemma trend_state_unknown (now : Z) (t : Tracker) :
  ema20 (emaData t) = [] \/ ema50 (emaData t) = [] ->
  getCurrentEMATrend now t
  = {| trend := UNKNOWN; t_ema20 := JNull; t_ema50 := JNull;
       lastCrossover := None; daysSinceCross := None |}.
Proof.
  intros H. unfold getCurrentEMATrend.
  destruct H as [-> | ->]; cbn; [reflexivity|].
  destruct (ema20 (emaData t)); reflexivity.
Qed.

(** The momentum part of a result. *)
Lemma calculateInvestmentSignals_momentum (now : Z) (t : Tracker) (d : Quote)
    (r : SignalResult) :
  data t = Some d ->
  calculateInvestmentSignals now t = Some r ->
  let tr := getCurrentEMATrend now t in
  m_trend (momentum r) = tr /\
  m_description (momentum r) = getMomentumStrategyDescription tr /\
  m_signal (momentum r)
  = match trend tr with BULLISH => BUY | BEARISH => AVOID | UNKNOWN => WAIT end /\
  bullishTrend (m_conditions (momentum r)) = is_BULLISH (trend tr) /\
  recentCross (m_conditions (momentum r))
  = match lastCrossover tr with
    | Some c => is_BULLISH_CROSS (c_type c) && (days_number (daysSinceCross tr) <? 30)%Z
    | None => false
    end /\
  priceAboveEMAs (m_conditions (momentum r))
  = js_gt (current_price d) (to_number (t_ema20 tr))
    && js_gt (current_price d) (to_number (t_ema50 tr)).
Proof.
  intros Hd. unfold calculateInvestmentSignals. rewrite Hd.
  intros H. injection H as <-. cbv zeta.
  cbn [momentum m_trend m_description m_signal m_conditions
       bullishTrend recentCross priceAboveEMAs].
  repeat split; try reflexivity.
  destruct (trend (getCurrentEMATrend now t)); reflexivity.
Qed.

(** X5.  The momentum signal is decided by the last fast and slow EMA
    values alone: BUY when the fast one is strictly above, AVOID when
    it is not, WAIT when a sequence is empty.  The conditions
    [recentCross] and [priceAboveEMAs], the crossover list and the
    clock have no part in it. *)
Theorem momentum_signal_by_last_values (now : Z) (t : Tracker) (r : SignalResult)
    (H : calculateInvestmentSignals now t = Some r) :
  (m_signal (momentum r) = BUY <->
   exists f s, last (ema20 (emaData t)) = Some f /\
               last (ema50 (emaData t)) = Some s /\ s < f) /\
  (m_signal (momentum r) = AVOID <->
   exists f s, last (ema20 (emaData t)) = Some f /\
               last (ema50 (emaData t)) = Some s /\ f <= s) /\
  (m_signal (momentum r) = WAIT <->
   ema20 (emaData t) = [] \/ ema50 (emaData t) = []).
Proof.
  assert (Hd : exists d, data t = Some d).
  { unfold calculateInvestmentSignals in H. destruct (data t) as [d|]; [|discriminate].
    exists d. reflexivity. }
  destruct Hd as [d Hd].
  destruct (calculateInvestmentSignals_momentum now t d r Hd H) as (_ & _ & Hs & _).
  cbv zeta in Hs. rewrite Hs. clear Hs.
  destruct (last (ema20 (emaData t))) as [f|] eqn:Ef.
  - destruct (last (ema50 (emaData t))) as [s|] eqn:Es.
    + rewrite (trend_by_last now t f s Ef Es).
      assert (N20 : ema20 (emaData t) <> []) by (intros E; rewrite E in Ef; discriminate).
      assert (N50 : ema50 (emaData t) <> []) by (intros E; rewrite E in Es; discriminate).
      destruct (js_gt f s) eqn:Eg.
      * apply js_gt_iff in Eg. repeat split; try discriminate; try tauto.
        -- intros _. exists f, s. repeat split. exact Eg.
        -- intros (f' & s' & Hf & Hs & Hle). injection Hf as <-. injection Hs as <-. lra.
      * apply js_lt_false_iff in Eg. repeat split; try discriminate; try tauto.
        -- intros (f' & s' & Hf & Hs & Hlt). injection Hf as <-. injection Hs as <-. lra.
        -- intros _. exists f, s. repeat split. exact Eg.
    + apply last_None in Es.
      rewrite (trend_state_unknown now t (or_intror Es)). cbn.
      repeat split; try discriminate; try tauto;
        intros (f' & s' & _ & Hs & _); discriminate.
  - apply last_None in Ef.
    rewrite (trend_state_unknown now t (or_introl Ef)). cbn.
    repeat split; try discriminate; try tauto;
      intros (f' & s' & Hf & _ & _); discriminate.
Qed.

Lemma momentum_signal_by_last_values_witness :
  let t := tracker_with (snapshot 20000 25 20) [1; 3] [2; 2] in
  exists r, calculateInvestmentSignals 0 t = Some r /\ m_signal (momentum r) = BUY.
Proof.
  intros t. eexists. split; [reflexivity|].
  apply (proj2 (proj1 (momentum_signal_by_last_values 0%Z t _ eq_refl))).
  exists 3, 2. repeat split.
Defined.

(** X6.  When one of the EMA sequences is empty the two EMA values of
    the trend state are [null], which compares as 0: [priceAboveEMAs]
    is reported met for every positive price.  [recentCross] is not
    met even if crossovers are on record, the momentum signal is WAIT
    and the combined signal is the value signal. *)
Theorem signals_without_emas (now : Z) (t : Tracker) (d : Quote) (r : SignalResult)
    (Hd : data t = Some d)
    (Hempty : ema20 (emaData t) = [] \/ ema50 (emaData t) = [])
    (H : calculateInvestmentSignals now t = Some r) :
  (priceAboveEMAs (m_conditions (momentum r)) = true <-> 0 < current_price d) /\
  recentCross (m_conditions (momentum r)) = false /\
  m_signal (momentum r) = WAIT /\
  m_description (momentum r) = "Trend unclear - Wait for confirmation"%string /\
  cb_signal (combined r) = v_signal (value r).
Proof.
  destruct (calculateInvestmentSignals_momentum now t d r Hd H)
    as (_ & Hdesc & Hs & _ & Hrc & Hp).
  cbv zeta in *. rewrite (trend_state_unknown now t Hempty) in *. cbn in *.
  split.
  - rewrite Hp, andb_diag. apply js_gt_iff.
  - split; [exact Hrc|]. split; [exact Hs|]. split; [exact Hdesc|].
    destruct (calculateInvestmentSignals_signals now t r H) as (Hv & _ & Hc).
    cbv zeta in Hv, Hc. rewrite Hc, Hs.
    destruct Hv as [-> | ->]; reflexivity.
Qed.

Lemma signals_without_emas_witness :
  let d := snapshot 20000 25 22 in
  let t := tracker_with d [] [] in
  data t = Some d /\ (ema20 (emaData t) = [] \/ ema50 (emaData t) = []) /\
  exists r, calculateInvestmentSignals 0 t = Some r /\
            priceAboveEMAs (m_conditions (momentum r)) = true.
Proof.
  cbv zeta. split; [reflexivity|]. split; [left; reflexivity|].
  eexists. split; [reflexivity|].
  apply (proj2 (proj1 (signals_without_emas 0%Z
                         (tracker_with (snapshot 20000 25 22) [] [])
                         (snapshot 20000 25 22) _ eq_refl (or_introl eq_refl) eq_refl))).
  vm_compute. reflexivity.
Defined.

(** X7.  With both EMA sequences non-empty, [recentCross] is met
    exactly when the last crossover on record is bullish and the clock
    is before midnight UTC of the thirtieth day after its date. *)
Theorem recentCross_window (now : Z) (t : Tracker) (d : Quote) (r : SignalResult)
    (Hd : data t = Some d)
    (H20 : ema20 (emaData t) <> []) (H50 : ema50 (emaData t) <> [])
    (H : calculateInvestmentSignals now t = Some r) :
  recentCross (m_conditions (momentum r)) = true <->
  exists c, last (crossovers (emaData t)) = Some c /\
            c_type c = BULLISH_CROSS /\
            (now < (c_date c + 30) * ms_per_day)%Z.
Proof.
  destruct (calculateInvestmentSignals_momentum now t d r Hd H)
    as (_ & _ & _ & _ & Hrc & _).
  cbv zeta in Hrc. rewrite Hrc.
  destruct (trend_state_known now t H20 H50) as [-> ->].
  destruct (last (crossovers (emaData t))) as [c|]; cbn.
  - rewrite andb_true_iff, Z.ltb_lt, days_lt_iff. split.
    + intros [Hty Hlt]. exists c. repeat split; [|exact Hlt].
      destruct (c_type c); [reflexivity|discriminate].
    + intros (c' & Hc & Hty & Hlt). injection Hc as <-. rewrite Hty. split; [reflexivity|exact Hlt].
  - split; [discriminate|]. intros (c & Hc & _). discriminate.
Qed.

Lemma recentCross_window_witness :
  let d := snapshot 20000 25 22 in
  let c := {| c_date := 100; c_type := BULLISH_CROSS; c_price := JNum 100;
              c_ema20 := 3; c_ema50 := 2 |} in
  let t := set_emaData {| ema20 := [1; 3]; ema50 := [2; 2]; crossovers := [c] |}
             (tracker_with d [] []) in
  let now := (129 * ms_per_day + 86399999)%Z in
  data t = Some d /\ ema20 (emaData t) <> [] /\ ema50 (emaData t) <> [] /\
  exists r, calculateInvestmentSignals now t = Some r /\
            recentCross (m_conditions (momentum r)) = true.
Proof.
  intros d c t now.
  split; [reflexivity|]. split; [discriminate|]. split; [discriminate|].
  eexists. split; [reflexivity|].
  refine (proj2 (recentCross_window now t d _ eq_refl _ _ eq_refl) _);
    try discriminate.
  exists c. split; [reflexivity|]. split; [reflexivity|]. vm_compute. reflexivity.
Defined.

(** ** The descriptions *)

Lemma calculateInvestmentSignals_value (now : Z) (t : Tracker) (d : Quote)
    (r : SignalResult) :
  data t = Some d ->
  calculateInvestmentSignals now t = Some r ->
  let cs := v_conditions (value r) in
  v_signal (value r) = (if vc_correction cs && vc_rsi cs && vc_pe cs then BUY else WAIT) /\
  v_description (value r) = getValueStrategyDescription cs /\
  cb_description (combined r) = getCombinedDescription (cb_signal (combined r)).
Proof.
  intros Hd. unfold calculateInvestmentSignals. rewrite Hd.
  intros H. injection H as <-. cbv zeta.
  cbn [value combined v_signal v_conditions v_description cb_signal cb_description
       vc_correction vc_rsi vc_pe forallb].
  split; [|split; reflexivity].
  destruct (js_le _ _); destruct (js_lt (rsi d) _); destruct (js_lt (pe_ratio d) _);
    reflexivity.
Qed.

(** X8.  The texts agree with the signals: the value description is the
    "all conditions met" one exactly when the value signal is BUY and
    the "no conditions met" one exactly when none of the three
    conditions holds, and each combined description belongs to one
    combined signal. *)
Theorem descriptions_agree_with_signals (now : Z) (t : Tracker) (r : SignalResult)
    (H : calculateInvestmentSignals now t = Some r) :
  (v_description (value r) = "All value conditions met - Strong buy opportunity"%string
   <-> v_signal (value r) = BUY) /\
  (v_description (value r) = "No value conditions met - Avoid buying"%string
   <-> vc_correction (v_conditions (value r)) = false /\
       vc_rsi (v_conditions (value r)) = false /\
       vc_pe (v_conditions (value r)) = false) /\
  (cb_description (combined r) = "Both strategies bullish - Excellent opportunity"%string
   <-> cb_signal (combined r) = STRONG_BUY) /\
  (cb_description (combined r) = "One strategy bullish - Good opportunity"%string
   <-> cb_signal (combined r) = BUY) /\
  (cb_description (combined r) = "Bearish momentum - Avoid new positions"%string
   <-> cb_signal (combined r) = AVOID) /\
  (cb_description (combined r) = "Mixed signals - Wait for clarity"%string
   <-> cb_signal (combined r) = WAIT).
Proof.
  assert (Hd : exists d, data t = Some d).
  { unfold calculateInvestmentSignals in H. destruct (data t) as [d|]; [|discriminate].
    exists d. reflexivity. }
  destruct Hd as [d Hd].
  destruct (calculateInvestmentSignals_value now t d r Hd H) as (Hv & Hvd & Hcd).
  cbv zeta in *. rewrite Hv, Hvd, Hcd. unfold getValueStrategyDescription, count_true.
  split; [|split].
  - destruct (vc_correction _), (vc_rsi _), (vc_pe _); cbn; split; congruence.
  - destruct (vc_correction _), (vc_rsi _), (vc_pe _); cbn;
      split; try discriminate; try tauto; intros (? & ? & ?); discriminate.
  - destruct (cb_signal (combined r)); cbn; repeat split; congruence.
Qed.

Lemma descriptions_agree_with_signals_witness :
  let t := tracker_with (snapshot 20000 25 20) [1] [2] in
  exists r, calculateInvestmentSignals 0 t = Some r /\
            v_description (value r)
            = "All value conditions met - Strong buy opportunity"%string.
Proof.
  intros t. eexists. split; [reflexivity|].
  apply (proj2 (proj1 (descriptions_agree_with_signals 0%Z t _ eq_refl))).
  reflexivity.
Defined.

(** X9.  Under a bullish trend the momentum text is the "fresh bullish
    crossover" one exactly when no crossover is on record, or the clock
    is before midnight UTC of the tenth day after the date of the last
    one, whatever the type of that crossover. *)
Theorem fresh_crossover_text (now : Z) (t : Tracker) (d : Quote) (r : SignalResult)
    (Hd : data t = Some d)
    (H : calculateInvestmentSignals now t = Some r)
    (Hbull : m_signal (momentum r) = BUY) :
  m_description (momentum r) = "Fresh bullish crossover - Strong momentum"%string <->
  crossovers (emaData t) = [] \/
  exists c, last (crossovers (emaData t)) = Some c /\
            (now < (c_date c + 10) * ms_per_day)%Z.
Proof.
  destruct (calculateInvestmentSignals_momentum now t d r Hd H)
    as (_ & Hdesc & Hs & _).
  cbv zeta in *. rewrite Hdesc. rewrite Hs in Hbull.
  assert (Hne : ema20 (emaData t) <> [] /\ ema50 (emaData t) <> []).
  { split; intros E.
    - rewrite (trend_state_unknown now t (or_introl E)) in Hbull. discriminate.
    - rewrite (trend_state_unknown now t (or_intror E)) in Hbull. discriminate. }
  destruct Hne as [H20 H50].
  unfold getMomentumStrategyDescription.
  destruct (trend (getCurrentEMATrend now t)); try discriminate.
  destruct (trend_state_known now t H20 H50) as [_ ->].
  destruct (last (crossovers (emaData t))) as [c|] eqn:El; cbn.
  - destruct (Z.ltb_spec ((now - c_date c * ms_per_day) / ms_per_day) 10) as [Hlt|Hge].
    + split; [|reflexivity]. intros _. right. exists c. split; [reflexivity|].
      apply days_lt_iff. exact Hlt.
    + split.
      * destruct (_ <? 30)%Z; discriminate.
      * intros [E|(c' & Hc & Hlt)].
        -- rewrite E in El. discriminate.
        -- injection Hc as <-. apply days_lt_iff in Hlt. lia.
  - split; [|reflexivity]. intros _. left. apply last_None. exact El.
Qed.

Lemma fresh_crossover_text_witness :
  let d := snapshot 20000 25 22 in
  let t := tracker_with d [1; 3] [2; 2] in
  data t = Some d /\
  exists r, calculateInvestmentSignals 0 t = Some r /\
            m_signal (momentum r) = BUY /\
            m_description (momentum r)
            = "Fresh bullish crossover - Strong momentum"%string.
Proof.
  cbv zeta. split; [reflexivity|].
  eexists. split; [reflexivity|]. split; [reflexivity|].
  apply (proj2 (fresh_crossover_text 0%Z (tracker_with (snapshot 20000 25 22) [1; 3] [2; 2])
                  (snapshot 20000 25 22) _ eq_refl eq_refl eq_refl)).
  left. reflexivity.
Defined.

(** ** Correction and upside *)



(** ** Snapshots the tracker writes itself *)

Lemma processNiftyData_snapshot (now : Z) (response : Payload) (t : Tracker) :
  exists d,
    data (processNiftyData now response t) = Some d /\
    rsi d = FALLBACK_rsi /\ pe_ratio d = FALLBACK_pe_ratio /\
    dma_200 d = FALLBACK_dma_200 /\ last_updated d = now /\
    THRESHOLDS (processNiftyData now response t) = THRESHOLDS t /\
    emaData (processNiftyData now response t) = emaData t /\
    historicalData (processNiftyData now response t) = historicalData t.
Proof.
  unfold processNiftyData, useFallbackData.
  destruct response as [result|]; eexists; cbn; repeat split; reflexivity.
Qed.

(** X11.  A snapshot written by [processNiftyData] or by
    [useFallbackData] carries the constants 53.21 for the RSI and 21.73
    for the PE, whatever the payload; against the thresholds 30 and 21
    its value signal is therefore WAIT, the combined signal is never
    STRONG BUY and equals the momentum signal. *)
Theorem own_snapshot_never_value_buy (now now' : Z) (response : Payload) (t : Tracker)
    (HT : THRESHOLDS t = THRESHOLDS_default) :
  exists r,
    calculateInvestmentSignals now' (processNiftyData now response t) = Some r /\
    v_signal (value r) = WAIT /\
    cb_signal (combined r) = m_signal (momentum r) /\
    cb_signal (combined r) <> STRONG_BUY.
Proof.
  destruct (processNiftyData_snapshot now response t)
    as (d & Hd & Hrsi & Hpe & _ & _ & HT' & _).
  destruct (calculateInvestmentSignals_total now' _ d Hd) as [r Hr].
  exists r. split; [exact Hr|].
  destruct (value_signal_enhanced now' _ d r Hd Hr) as [Hiff Hwait].
  assert (Hv : v_signal (value r) = WAIT).
  { apply Hwait. intros Hbuy. apply Hiff in Hbuy as (_ & Hr30 & _).
    rewrite Hrsi, HT', HT in Hr30. vm_compute in Hr30. discriminate. }
  split; [exact Hv|].
  destruct (calculateInvestmentSignals_signals now' _ r Hr) as (_ & Hm & Hc).
  cbv zeta in Hm, Hc. rewrite Hc, Hv.
  destruct Hm as [-> | [-> | ->]]; cbn; split; congruence.
Qed.

Lemma own_snapshot_never_value_buy_witness :
  let t := constructed [] in
  THRESHOLDS t = THRESHOLDS_default /\
  exists r,
    calculateInvestmentSignals 0
      (processNiftyData 0 (Some (chart_of_closes [100])) t) = Some r /\
    v_signal (value r) = WAIT.
Proof.
  intros t. split; [reflexivity|].
  destruct (own_snapshot_never_value_buy 0%Z 0%Z (Some (chart_of_closes [100])) t eq_refl)
    as (r & Hr & Hv & _).
  exists r. split; assumption.
Defined.

(** ** Fetching *)

(** X12.  When a response arrives, [fetchHistoricalData] caches the
    history it has just installed under [nifty_historical], dated with
    the clock.  That includes the fallback series it installs when the
    payload cannot be processed.  A load within the hour then installs
    that same history.  When no response arrives the fallback series is
    installed and the cache is not written. *)
Theorem fetchHistoricalData_caches_history (now_cache : Z) (t : Tracker)
    (ls : LocalStorage) (Hfull : full ls = false) :
  (forall payload : Payload,
     let w := fetchHistoricalData now_cache (Some payload) (t, ls) in
     fst w = processHistoricalData payload t /\
     getItem "nifty_historical" (snd w)
     = Some (Parsed {| e_data := VBars (historicalData (fst w));
                       e_timestamp := now_cache;
                       e_version := current_version |}) /\
     (forall e, try_processHistoricalData payload = Throws e ->
                historicalData (fst w) = FALLBACK_HISTORICAL t) /\
     (forall (now : Z) (t2 : Tracker),
        readable "nifty_current" ls ->
        (now - now_cache < 3600000)%Z ->
        historicalData (loadCachedData now (snd w) t2) = historicalData (fst w))) /\
  fetchHistoricalData now_cache None (t, ls)
  = (set_historicalData (FALLBACK_HISTORICAL t) t, ls).
Proof.
  split; [|reflexivity].
  intros payload w. subst w. cbn [fetchHistoricalData fst snd].
  split; [reflexivity|]. split; [apply getItem_cacheData_eq; exact Hfull|]. split.
  - intros e He. unfold processHistoricalData. rewrite He. reflexivity.
  - intros now t2 Hr Hw.
    rewrite loadCachedData_historicalData.
    rewrite (getItem_cacheData_ne _ "nifty_historical" "nifty_current") by discriminate.
    destruct (load_current_frame now _ t2 Hr) as (t' & -> & _ & _).
    rewrite getItem_cacheData_eq by assumption.
    now rewrite (load_historical_own now_cache now _ t' Hw).
Qed.

Lemma fetchHistoricalData_caches_history_witness :
  let ls := {| items := ∅; full := false |} in
  let t := constructed (bars_of_closes [1; 2; 3]) in
  let w := fetchHistoricalData 1000 (Some None) (t, ls) in
  full ls = false /\
  historicalData (fst w) = bars_of_closes [1; 2; 3] /\
  historicalData (loadCachedData 2000 (snd w) (constructed []))
  = bars_of_closes [1; 2; 3].
Proof.
  intros ls t w.
  assert (Hr : readable "nifty_current" ls)
    by (unfold readable, getItem; cbn; rewrite lookup_empty; discriminate).
  split; [reflexivity|]. split; [reflexivity|].
  exact (proj2 (proj2 (proj2 (proj1
           (fetchHistoricalData_caches_history 1000 t ls eq_refl) None)))
           2000%Z (constructed []) Hr ltac:(lia)).
Defined.

Lemma cacheData_commute (a b : Z) (k1 k2 : string) (v1 v2 : CacheValue)
    (ls : LocalStorage) :
  k1 <> k2 ->
  cacheData a k1 v1 (cacheData b k2 v2 ls) = cacheData b k2 v2 (cacheData a k1 v1 ls).
Proof.
  intros Hne. unfold cacheData, setItem. destruct ls as [m f].
  destruct f; cbn; [reflexivity|]. f_equal. now apply insert_insert_ne.
Qed.

(** X13.  The two fetches of a refresh write disjoint fields and
    disjoint cache keys: their effects commute, so the order in which
    the two responses arrive does not matter. *)
Theorem fetches_commute (now now_c now_h : Z) (quote_response history_response : option Payload)
    (w : World) :
  fetchNiftyData now now_c quote_response
    (fetchHistoricalData now_h history_response w)
  = fetchHistoricalData now_h history_response
      (fetchNiftyData now now_c quote_response w).
Proof.
  destruct w as [t ls].
  destruct quote_response as [[q|]|]; destruct history_response as [h|];
    cbn [fetchNiftyData fetchHistoricalData];
    unfold processHistoricalData;
    try destruct (try_processHistoricalData h);
    cbn; try reflexivity;
    f_equal; apply cacheData_commute; discriminate.
Qed.

(** ** Market hours and the refresh timer *)

(** X14.  [isMarketHours] holds exactly from 09:15:00.000 to
    15:30:59.999 Kolkata time, Monday to Friday, and repeats every
    week.  The basic tracker applies the same window to the browser's
    own clock, so it agrees only where that clock is five and a half
    hours ahead of UTC. *)
Theorem isMarketHours_window (now : Z) :
  (isMarketHours now = true <->
   (1 <= day_of_week (ist_ms now) <= 5)%Z /\
   (33300000 <= ist_ms now mod 86400000 < 55860000)%Z) /\
  isMarketHours (now + 7 * 86400000) = isMarketHours now /\
  (forall tz_offset_ms : Z,
     NiftyTracker.isMarketHours tz_offset_ms now
     = isMarketHours (now + (tz_offset_ms - 19800000))).
Proof.
  split; [|split].
  - unfold isMarketHours, market_open_at, hours_of, minutes_of. cbv zeta.
    set (x := ist_ms now). unfold day_of_week.
    rewrite !andb_true_iff, !Z.leb_le.
    split.
    + intros [[[H1 H2] H3] H4]. split; [lia|].
      Z.div_mod_to_equations. lia.
    + intros [[H1 H2] [H3 H4]]. repeat split; try assumption.
      * Z.div_mod_to_equations. lia.
      * Z.div_mod_to_equations. lia.
  - unfold isMarketHours, market_open_at, hours_of, minutes_of, day_of_week, ist_ms.
    cbv zeta.
    replace ((now + 7 * 86400000 + 19800000) / 86400000)%Z
      with ((now + 19800000) / 86400000 + 7)%Z
      by (Z.div_mod_to_equations; lia).
    replace (((now + 19800000) / 86400000 + 7 + 4) mod 7)%Z
      with (((now + 19800000) / 86400000 + 4) mod 7)%Z
      by (Z.div_mod_to_equations; lia).
    replace (((now + 7 * 86400000 + 19800000) / 3600000) mod 24)%Z
      with (((now + 19800000) / 3600000) mod 24)%Z
      by (Z.div_mod_to_equations; lia).
    replace (((now + 7 * 86400000 + 19800000) / 60000) mod 60)%Z
      with (((now + 19800000) / 60000) mod 60)%Z
      by (Z.div_mod_to_equations; lia).
    reflexivity.
  - intros tz. unfold NiftyTracker.isMarketHours, isMarketHours, ist_ms.
    f_equal. lia.
Qed.

Lemma clearAutoRefresh_empties (st : Scheduler * Timers) :
  timers_ok st ->
  live (snd (clearAutoRefresh st)) = ∅ /\
  refreshInterval (fst (clearAutoRefresh st)) = None /\
  next_handle (snd (clearAutoRefresh st)) = next_handle (snd st) /\
  isOnline (fst (clearAutoRefresh st)) = isOnline (fst st).
Proof.
  destruct st as [[ri on] [lv nx]]. intros [_ Hdom]. cbn in *.
  destruct ri as [h|]; cbn.
  - repeat split. apply dom_empty_iff_L. rewrite dom_delete_L, Hdom. set_solver.
  - repeat split. apply dom_empty_iff_L. exact Hdom.
Qed.

Lemma timers_ok_cleared (st : Scheduler * Timers) :
  timers_ok st -> timers_ok (clearAutoRefresh st).
Proof.
  intros H. destruct (clearAutoRefresh_empties st H) as (Hl & Hr & _ & _).
  split.
  - intros h p Hp. rewrite Hl, lookup_empty in Hp. discriminate.
  - rewrite Hl, Hr. apply dom_empty_L.
Qed.

Lemma setupAutoRefresh_one_timer (now : Z) (st : Scheduler * Timers) :
  timers_ok st ->
  timers_ok (setupAutoRefresh now st) /\
  refreshInterval (fst (setupAutoRefresh now st)) = Some (next_handle (snd st)) /\
  live (snd (setupAutoRefresh now st))
  = {[next_handle (snd st) := if isMarketHours now then 30000%Z else 300000%Z]}.
Proof.
  intros H. destruct (clearAutoRefresh_empties st H) as (Hl & _ & Hn & _).
  unfold setupAutoRefresh.
  destruct (clearAutoRefresh st) as [s tm]. cbn in Hl, Hn.
  assert (E : live (snd (let '(handle, tm') :=
                           if isMarketHours now then setInterval 30000 tm
                           else setInterval 300000 tm in
                         ({| refreshInterval := Some handle; isOnline := isOnline s |}, tm')))
              = {[next_handle (snd st) := if isMarketHours now then 30000%Z else 300000%Z]}).
  { destruct (isMarketHours now); cbn; rewrite Hl, Hn; apply insert_empty. }
  split; [|split].
  - split.
    + intros h p Hp. rewrite E in Hp.
      apply lookup_singleton_Some in Hp as [<- _].
      destruct (isMarketHours now); cbn; rewrite Hn; lia.
    + rewrite E, dom_singleton_L. destruct (isMarketHours now); cbn; rewrite Hn; reflexivity.
  - destruct (isMarketHours now); cbn; rewrite Hn; reflexivity.
  - exact E.
Qed.

(** X15.  The scheduling methods keep the timers in order: after
    [clearAutoRefresh], and after going offline, no timer is live;
    after [setupAutoRefresh] exactly one is, with a period of 30
    seconds in market hours and 5 minutes otherwise, whether the
    tracker is online or not.  In the basic tracker the one timer
    exists only in market hours and online. *)
Theorem refresh_timer_invariant (st : Scheduler * Timers) (Hok : timers_ok st) :
  (timers_ok (clearAutoRefresh st) /\ live (snd (clearAutoRefresh st)) = ∅) /\
  (forall now : Z,
     timers_ok (setupAutoRefresh now st) /\
     exists h,
       refreshInterval (fst (setupAutoRefresh now st)) = Some h /\
       live (snd (setupAutoRefresh now st))
       = {[h := if isMarketHours now then 30000%Z else 300000%Z]}) /\
  (forall (now : Z) (online : bool),
     timers_ok (handleOnlineStatus now online st) /\
     isOnline (fst (handleOnlineStatus now online st)) = online /\
     (online = false -> live (snd (handleOnlineStatus now online st)) = ∅)) /\
  (forall tz_offset_ms now : Z,
     let st' := NiftyTracker.setupAutoRefresh tz_offset_ms now st in
     timers_ok st' /\
     (live (snd st') <> ∅ <->
      NiftyTracker.isMarketHours tz_offset_ms now = true /\ isOnline (fst st) = true) /\
     (forall h p, live (snd st') !! h = Some p -> p = 30000%Z)).
Proof.
  split; [|split; [|split]].
  - split; [apply timers_ok_cleared; exact Hok|].
    apply clearAutoRefresh_empties. exact Hok.
  - intros now. destruct (setupAutoRefresh_one_timer now st Hok) as (H1 & H2 & H3).
    split; [exact H1|]. eexists. split; [exact H2|exact H3].
  - intros now online. destruct st as [s tm]. unfold handleOnlineStatus.
    assert (Hok' : timers_ok ({| refreshInterval := refreshInterval s; isOnline := online |}, tm))
      by exact Hok.
    destruct online.
    + destruct (setupAutoRefresh_one_timer now _ Hok') as (H1 & _ & _).
      split; [exact H1|]. split; [|discriminate].
      unfold setupAutoRefresh.
      destruct (clearAutoRefresh_empties _ Hok') as (_ & _ & _ & Hon).
      destruct (clearAutoRefresh _) as [s' tm']. cbn in Hon.
      destruct (isMarketHours now); cbn; exact Hon.
    + split; [apply timers_ok_cleared; exact Hok'|].
      destruct (clearAutoRefresh_empties _ Hok') as (Hl & _ & _ & Hon).
      split; [exact Hon|]. intros _. exact Hl.
  - intros tz now st'. subst st'. unfold NiftyTracker.setupAutoRefresh, NiftyTracker.clearAutoRefresh.
    pose proof (timers_ok_cleared st Hok) as Hc.
    destruct (clearAutoRefresh_empties st Hok) as (Hl & Hr & Hn & Hon).
    destruct (clearAutoRefresh st) as [s tm]. cbn in Hl, Hr, Hn, Hon. rewrite Hon.
    destruct (NiftyTracker.isMarketHours tz now && isOnline (fst st)) eqn:E.
    + apply andb_true_iff in E as [E1 E2]. cbn. rewrite Hl, insert_empty.
      split; [|split].
      * split.
        -- intros h p Hp. cbn in Hp. apply lookup_singleton_Some in Hp as [<- _]. cbn. lia.
        -- cbn. apply dom_singleton_L.
      * split; [intros _; split; assumption|].
        intros _ Hemp. apply (f_equal (fun m => m !! next_handle tm)) in Hemp.
        rewrite lookup_singleton_eq, lookup_empty in Hemp. discriminate.
      * intros h p Hp. apply lookup_singleton_Some in Hp as [_ <-]. reflexivity.
    + cbn. split; [exact Hc|]. rewrite Hl. split.
      * split; [congruence|]. intros [E1 E2]. rewrite E1, E2 in E. discriminate.
      * intros h p Hp. rewrite lookup_empty in Hp. discriminate.
Qed.

Lemma refresh_timer_invariant_witness :
  let st := ({| refreshInterval := None; isOnline := false |},
             {| live := ∅; next_handle := 1 |}) in
  timers_ok st /\
  forall now : Z, timers_ok (setupAutoRefresh now (setupAutoRefresh now st)).
Proof.
  intros st.
  assert (Hok : timers_ok st).
  { split; [intros h p Hp; cbn in Hp; rewrite lookup_empty in Hp; discriminate|].
    cbn. apply dom_empty_L. }
  split; [exact Hok|]. intros now.
  apply (proj1 (proj2 (refresh_timer_invariant _
           (proj1 (proj1 (proj2 (refresh_timer_invariant st Hok)) now)))) now).
Defined.

(** A Monday at 09:15 in Kolkata. *)
Lemma isMarketHours_window_witness :
  let now := (4 * 86400000 + 33300000 - 19800000)%Z in
  ((1 <= day_of_week (ist_ms now) <= 5)%Z /\
   (33300000 <= ist_ms now mod 86400000 < 55860000)%Z) /\
  isMarketHours now = true.
Proof.
  intros now.
  assert (H : (1 <= day_of_week (ist_ms now) <= 5)%Z /\
              (33300000 <= ist_ms now mod 86400000 < 55860000)%Z)
    by (vm_compute; repeat split; congruence).
  split; [exact H|].
  exact (proj2 (proj1 (isMarketHours_window now)) H).
Defined.

(** ** The basic tracker *)

Lemma processYahooData_constants (now : Z) (yahooData : Payload) :
  NiftyTracker.pe_ratio (NiftyTracker.processYahooData now yahooData)
  = NiftyTracker.FALLBACK_pe_ratio /\
  NiftyTracker.all_time_high (NiftyTracker.processYahooData now yahooData)
  = 2627735 # 100.
Proof.
  unfold NiftyTracker.processYahooData, NiftyTracker.try_processYahooData.
  destruct yahooData as [result|]; split; reflexivity.
Qed.

(** X16.  The basic tracker never shows BUY SIGNAL for a snapshot it
    has made itself: [processYahooData] and [useFallbackData] both set
    the PE to the constant 21.73, which is not below the bound of 21,
    whatever the prices, the RSI and the correction. *)
Theorem basic_badge_is_always_wait (now : Z) (yahooData : Payload) (correctionPercent : Q) :
  NiftyTracker.updateInvestmentSignal
    (NiftyTracker.processYahooData now yahooData) correctionPercent
  = NiftyTracker.WAIT /\
  NiftyTracker.updateInvestmentSignal
    (NiftyTracker.useFallbackData now) correctionPercent
  = NiftyTracker.WAIT.
Proof.
  unfold NiftyTracker.updateInvestmentSignal, NiftyTracker.conditions_of.
  cbn [NiftyTracker.c_correction NiftyTracker.c_rsi NiftyTracker.c_pe].
  destruct (processYahooData_constants now yahooData) as [-> _].
  change (js_lt NiftyTracker.FALLBACK_pe_ratio
            (NiftyTracker.PE_ATTRACTIVE NiftyTracker.THRESHOLDS)) with false.
  change (js_lt (NiftyTracker.pe_ratio (NiftyTracker.useFallbackData now))
            (NiftyTracker.PE_ATTRACTIVE NiftyTracker.THRESHOLDS)) with false.
  rewrite !andb_false_r. split; reflexivity.
Qed.




(** ** More on calculateRSI *)

Lemma changes_of_lookup_2 (prices : list Q) (i : nat) (a b : Q) :
  prices !! i = Some a -> prices !! S i = Some b ->
  NiftyTracker.changes_of prices !! i = Some (b - a).
Proof.
  revert i. induction prices as [|x prices IH]; intros i Ha Hb; [discriminate|].
  destruct prices as [|y rest]; [destruct i; discriminate|].
  rewrite changes_of_cons2. destruct i as [|i].
  - cbn in Ha, Hb. injection Ha as ->. injection Hb as ->. reflexivity.
  - exact (IH i Ha Hb).
Qed.

Lemma recent_is_last_differences (period : Z) (prices : list Q) :
  (0 < period)%Z ->
  slice_neg period (NiftyTracker.changes_of prices) = last_differences period prices.
Proof.
  intros Hpos. unfold slice_neg, last_differences.
  destruct (Z.ltb_spec 0 period); [|lia].
  rewrite changes_of_length. reflexivity.
Qed.




(** X18.  [calculateRSI] looks at the last [period + 1] prices only, and
    returns the constant 53.21 when there are fewer. *)
Theorem calculateRSI_window (prices : list Q) (period : Z) (Hpos : (0 < period)%Z) :
  ((Z.of_nat (length prices) < period + 1)%Z ->
   NiftyTracker.calculateRSI prices period = NiftyTracker.FALLBACK_rsi) /\
  ((period + 1 <= Z.of_nat (length prices))%Z ->
   NiftyTracker.calculateRSI prices period
   = NiftyTracker.calculateRSI (slice_neg (period + 1) prices) period).
Proof.
  split.
  - intros H. unfold NiftyTracker.calculateRSI.
    destruct (Z.ltb_spec (Z.of_nat (length prices)) (period + 1)); [reflexivity|lia].
  - intros Hlen.
    assert (Es : slice_neg (period + 1) prices
                 = drop (length prices - Z.to_nat (period + 1)) prices).
    { unfold slice_neg. destruct (Z.ltb_spec 0 (period + 1)); [reflexivity|lia]. }
    rewrite Es. set (k := (length prices - Z.to_nat (period + 1))%nat).
    assert (Hw : length (drop k prices) = Z.to_nat (period + 1))
      by (rewrite length_skipn; lia).
    rewrite !calculateRSI_enough by lia. cbv zeta.
    rewrite !recent_is_last_differences by assumption.
    assert (E : last_differences period prices
                = last_differences period (drop k prices)).
    { apply list_eq. intros j. unfold last_differences.
      rewrite !lookup_drop.
      replace (length (drop k prices) - 1 - Z.to_nat period + j)%nat with j by lia.
      replace (length prices - 1 - Z.to_nat period + j)%nat with (k + j)%nat by lia.
      destruct (NiftyTracker.changes_of prices !! (k + j)%nat) as [c|] eqn:Ec.
      - destruct (changes_of_lookup _ _ _ Ec) as (a & b & Ha & Hb & ->).
        symmetry. apply changes_of_lookup_2; rewrite lookup_drop.
        + exact Ha.
        + replace (k + S j)%nat with (S (k + j)) by lia. exact Hb.
      - destruct (NiftyTracker.changes_of (drop k prices) !! j) as [c|] eqn:Ec';
          [|reflexivity].
        destruct (changes_of_lookup _ _ _ Ec') as (a & b & Ha & Hb & ->).
        rewrite lookup_drop in Ha, Hb.
        replace (k + S j)%nat with (S (k + j)) in Hb by lia.
        rewrite (changes_of_lookup_2 _ _ _ _ Ha Hb) in Ec. discriminate. }
    rewrite E. reflexivity.
Qed.

Lemma calculateRSI_window_witness :
  let prices := [50; 60; 40; 30; 20; 10] in
  (0 < 3)%Z /\ (3 + 1 <= Z.of_nat (length prices))%Z /\
  NiftyTracker.calculateRSI prices 3 = NiftyTracker.calculateRSI [40; 30; 20; 10] 3.
Proof.
  intros prices. split; [lia|]. split; [simpl; lia|].
  exact (proj2 (calculateRSI_window prices 3 ltac:(lia)) ltac:(simpl; lia)).
Defined.





(** ** The 52-week extremes *)

Lemma Math_max_from (xs : list Q) (m0 : Q) :
  exists m,
    fold_left (fun acc x =>
                 match acc with
                 | NiftyTracker.Finite m => NiftyTracker.Finite (if js_gt x m then x else m)
                 | _ => NiftyTracker.Finite x
                 end) xs (NiftyTracker.Finite m0) = NiftyTracker.Finite m /\
    (m = m0 \/ In m xs) /\ m0 <= m /\ forall x, In x xs -> x <= m.
Proof.
  revert m0. induction xs as [|x xs IH]; intros m0.
  - exists m0. cbn. repeat split; [left; reflexivity|lra|tauto].
  - cbn [fold_left].
    destruct (IH (if js_gt x m0 then x else m0)) as (m & Hm & Hin & Hle & Hall).
    exists m. split; [exact Hm|].
    destruct (js_gt x m0) eqn:E.
    + apply js_gt_iff in E. repeat split.
      * right. destruct Hin as [-> | Hin]; [left; reflexivity|right; exact Hin].
      * lra.
      * intros y [<- | Hy]; [exact Hle|exact (Hall y Hy)].
    + apply js_lt_false_iff in E. repeat split.
      * destruct Hin as [-> | Hin]; [left; reflexivity|right; right; exact Hin].
      * exact Hle.
      * intros y [<- | Hy]; [lra|exact (Hall y Hy)].
Qed.

Lemma Math_min_from (xs : list Q) (m0 : Q) :
  exists m,
    fold_left (fun acc x =>
                 match acc with
                 | NiftyTracker.Finite m => NiftyTracker.Finite (if js_lt x m then x else m)
                 | _ => NiftyTracker.Finite x
                 end) xs (NiftyTracker.Finite m0) = NiftyTracker.Finite m /\
    (m = m0 \/ In m xs) /\ m <= m0 /\ forall x, In x xs -> m <= x.
Proof.
  revert m0. induction xs as [|x xs IH]; intros m0.
  - exists m0. cbn. repeat split; [left; reflexivity|lra|tauto].
  - cbn [fold_left].
    destruct (IH (if js_lt x m0 then x else m0)) as (m & Hm & Hin & Hle & Hall).
    exists m. split; [exact Hm|].
    destruct (js_lt x m0) eqn:E.
    + apply js_lt_iff in E. repeat split.
      * right. destruct Hin as [-> | Hin]; [left; reflexivity|right; exact Hin].
      * lra.
      * intros y [<- | Hy]; [exact Hle|exact (Hall y Hy)].
    + apply js_lt_false_iff in E. repeat split.
      * destruct Hin as [-> | Hin]; [left; reflexivity|right; right; exact Hin].
      * exact Hle.
      * intros y [<- | Hy]; [lra|exact (Hall y Hy)].
Qed.

Lemma filter_not_null_In (arr : list (option Q)) (x : Q) :
  In x (filter_not_null arr) <-> In (Some x) arr.
Proof.
  induction arr as [|[q|] arr IH]; cbn.
  - tauto.
  - rewrite IH. split; intros [H|H]; auto; left; congruence.
  - rewrite IH. split; [auto|]. intros [H|H]; [discriminate|exact H].
Qed.

(** X21.  The 52-week high of a snapshot made by [processYahooData] is
    the greatest number of the payload's [high] array, nulls set aside,
    and the 52-week low the least number of its [low] array.  When an
    array holds no number the high is -Infinity and the low is
    +Infinity. *)
Theorem processYahooData_extremes (now : Z) (result : ChartResult) :
  let d := NiftyTracker.processYahooData now (Some result) in
  let highs := q_high (quote result) in
  let lows := q_low (quote result) in
  ((forall x, ~ In (Some x) highs) -> NiftyTracker.high_52w d = NiftyTracker.NegInfinity) /\
  ((forall x, ~ In (Some x) lows) -> NiftyTracker.low_52w d = NiftyTracker.PosInfinity) /\
  (forall x0, In (Some x0) highs ->
     exists m, NiftyTracker.high_52w d = NiftyTracker.Finite m /\
               In (Some m) highs /\ forall x, In (Some x) highs -> x <= m) /\
  (forall x0, In (Some x0) lows ->
     exists m, NiftyTracker.low_52w d = NiftyTracker.Finite m /\
               In (Some m) lows /\ forall x, In (Some x) lows -> m <= x).
Proof.
  cbv zeta. unfold NiftyTracker.processYahooData, NiftyTracker.try_processYahooData.
  cbn [NiftyTracker.high_52w NiftyTracker.low_52w].
  unfold NiftyTracker.Math_max, NiftyTracker.Math_min.
  split; [|split; [|split]].
  - intros Hnone. destruct (filter_not_null (q_high (quote result))) as [|x xs] eqn:E;
      [reflexivity|].
    exfalso. apply (Hnone x). apply filter_not_null_In. rewrite E. left. reflexivity.
  - intros Hnone. destruct (filter_not_null (q_low (quote result))) as [|x xs] eqn:E;
      [reflexivity|].
    exfalso. apply (Hnone x). apply filter_not_null_In. rewrite E. left. reflexivity.
  - intros x0 Hx0. apply filter_not_null_In in Hx0.
    destruct (filter_not_null (q_high (quote result))) as [|x xs] eqn:E; [destruct Hx0|].
    cbn [fold_left]. destruct (Math_max_from xs x) as (m & -> & Hin & Hle & Hall).
    exists m. split; [reflexivity|]. split.
    + apply filter_not_null_In. rewrite E.
      destruct Hin as [-> | Hin]; [left; reflexivity|right; exact Hin].
    + intros y Hy. apply filter_not_null_In in Hy. rewrite E in Hy.
      destruct Hy as [<- | Hy]; [exact Hle|exact (Hall y Hy)].
  - intros x0 Hx0. apply filter_not_null_In in Hx0.
    destruct (filter_not_null (q_low (quote result))) as [|x xs] eqn:E; [destruct Hx0|].
    cbn [fold_left]. destruct (Math_min_from xs x) as (m & -> & Hin & Hle & Hall).
    exists m. split; [reflexivity|]. split.
    + apply filter_not_null_In. rewrite E.
      destruct Hin as [-> | Hin]; [left; reflexivity|right; exact Hin].
    + intros y Hy. apply filter_not_null_In in Hy. rewrite E in Hy.
      destruct Hy as [<- | Hy]; [exact Hle|exact (Hall y Hy)].
Qed.

Lemma processYahooData_extremes_witness :
  let result := chart_of_closes [5; 9; 7] in
  In (Some 9) (q_high (quote result)) /\
  exists m, NiftyTracker.high_52w (NiftyTracker.processYahooData 0 (Some result))
            = NiftyTracker.Finite m /\ 9 <= m.
Proof.
  intros result.
  assert (Hin : In (Some 9) (q_high (quote result))) by (right; left; reflexivity).
  split; [exact Hin|].
  destruct (proj1 (proj2 (proj2 (processYahooData_extremes 0%Z result))) 9 Hin)
    as (m & Hm & _ & Hall).
  exists m. split; [exact Hm|exact (Hall 9 Hin)].
Defined.

(** ** The service worker *)

Import ServiceWorker.

(** X22.  A static asset whose cached copy is dated at most 24 hours
    back is answered from the cache: the network is not consulted and
    the cache is left as it is.  The same holds, at any age, for a copy
    whose date header is not a date. *)
Theorem static_asset_fresh_hit (now now_put : Z) (net : FetchResult) (req : Request)
    (cache : gmap string Response) (c : Response)
    (Hc : cache_match req cache = Some c)
    (Hfresh : match cache_time c with
              | Some ms => (now - ms <= CACHE_DURATION_STATIC)%Z
              | None => True
              end) :
  handleStaticAsset now now_put net req cache = (c, cache).
Proof.
  unfold handleStaticAsset. rewrite Hc. unfold older_than.
  destruct (cache_time c) as [ms|]; [|reflexivity].
  destruct (Z.ltb_spec CACHE_DURATION_STATIC (now - ms)); [lia|reflexivity].
Qed.

Lemma static_asset_fresh_hit_witness :
  let c := dated 1000 (unavailable "x") in
  let req := {| href := "/app.js"; destination := "script" |} in
  let cache := cache_put req c ∅ in
  cache_match req cache = Some c /\
  handleStaticAsset 5000 5000 Rejected req cache = (c, cache).
Proof.
  intros c req cache.
  assert (Hc : cache_match req cache = Some c) by apply lookup_insert_eq.
  split; [exact Hc|].
  apply (static_asset_fresh_hit 5000 5000 Rejected req cache c Hc).
  vm_compute. congruence.
Defined.

Lemma addAll_undated (fetched : list (Request * Response))
    (cache cache' : gmap string Response) :
  Forall (fun entry => undated (snd entry)) fetched ->
  (forall k r, cache !! k = Some r -> undated r) ->
  addAll fetched cache = Some cache' ->
  forall k r, cache' !! k = Some r -> undated r.
Proof.
  unfold addAll. destruct (forallb _ fetched); [|discriminate].
  intros Hall Hcache H. injection H as <-.
  revert cache Hcache. induction Hall as [|[req r0] rest Hr0 _ IH]; intros cache Hcache.
  - exact Hcache.
  - cbn [fold_left]. apply IH. intros k r Hk. unfold cache_put in Hk. cbn in Hk.
    destruct (decide (href req = k)) as [<-|Hne].
    + rewrite lookup_insert_eq in Hk. injection Hk as <-. exact Hr0.
    + rewrite lookup_insert_ne in Hk by exact Hne. exact (Hcache k r Hk).
Qed.

(** X23.  The install step stores the assets as the server sent them,
    without the [sw-cache-date] header, and a copy without that header
    counts as dated at the epoch.  So at any time later than one day
    after the epoch a precached asset is treated as expired: when the
    network request fails the cached copy is not served, and the answer
    is the offline page for a document and a 503 otherwise.  A network
    answer that is not [ok] does get the cached copy served. *)
Theorem precached_asset_not_served_offline (fetched : list (Request * Response))
    (cache : gmap string Response) (now now_put : Z) (req : Request) (c : Response)
    (Hsent : Forall (fun entry => undated (snd entry)) fetched)
    (Hinstall : addAll fetched ∅ = Some cache)
    (Hc : cache_match req cache = Some c)
    (Hnow : (CACHE_DURATION_STATIC < now)%Z) :
  handleStaticAsset now now_put Rejected req cache = (static_failure req, cache) /\
  (forall bad : Response,
     ok bad = false ->
     handleStaticAsset now now_put (Resolved bad) req cache = (c, cache)).
Proof.
  assert (Hu : undated c).
  { apply (addAll_undated fetched ∅ cache Hsent) with (k := href req);
      [|exact Hinstall|exact Hc].
    intros k r Hk. rewrite lookup_empty in Hk. discriminate. }
  unfold handleStaticAsset. rewrite Hc. unfold cache_time. rewrite Hu.
  unfold older_than. destruct (Z.ltb_spec CACHE_DURATION_STATIC (now - 0)); [|lia].
  cbn. split; [reflexivity|]. intros bad ->. reflexivity.
Qed.

Lemma precached_asset_not_served_offline_witness :
  let page := {| status := 200; statusText := "OK"; body := Text "<html>";
                 headers := ∅ |} in
  let req := {| href := "/index.html"; destination := "document" |} in
  exists cache,
    addAll [(req, page)] ∅ = Some cache /\
    cache_match req cache = Some page /\
    handleStaticAsset 1700000000000 1700000000000 Rejected req cache
    = (offline_page, cache).
Proof.
  intros page req. eexists. split; [reflexivity|].
  assert (Hc : cache_match req (cache_put req page ∅) = Some page)
    by apply lookup_insert_eq.
  split; [exact Hc|].
  refine (proj1 (precached_asset_not_served_offline [(req, page)] _
                   1700000000000 1700000000000 req page _ eq_refl Hc _)).
  - constructor; [apply lookup_empty|constructor].
  - vm_compute. reflexivity.
Defined.

Lemma handleAPIRequest_from_cache (now_put now : Z) (net : FetchResult) (req : Request)
    (cache : gmap string Response) :
  (net = Rejected \/ exists bad, net = Resolved bad /\ ok bad = false) ->
  handleAPIRequest now_put now net req cache
  = match cache_match req cache with
    | Some cachedResponse =>
        ({| status := status cachedResponse;
            statusText := statusText cachedResponse;
            body := body cachedResponse;
            headers :=
              if older_than now CACHE_DURATION_API (cache_time cachedResponse)
              then <["sw-cache-stale" := HText "true"]> (headers cachedResponse)
              else headers cachedResponse |}, cache)
    | None => (getFallbackAPIResponse now, cache)
    end.
Proof.
  unfold handleAPIRequest. intros [-> | (bad & -> & ->)]; reflexivity.
Qed.

(** X24.  The API handler puts successful responses only in its cache
    and, from a cache that holds successful responses only, never hands
    back a response that is not [ok]: a failed or unsuccessful network
    request is answered by the cached copy or by the built-in fallback
    with status 200. *)
Theorem api_handler_answers_ok (now_put now : Z) (net : FetchResult) (req : Request)
    (cache : gmap string Response) (Hcache : all_ok cache) :
  ok (fst (handleAPIRequest now_put now net req cache)) = true /\
  all_ok (snd (handleAPIRequest now_put now net req cache)).
Proof.
  assert (Hfrom : forall n,
             (n = Rejected \/ exists bad, n = Resolved bad /\ ok bad = false) ->
             ok (fst (handleAPIRequest now_put now n req cache)) = true /\
             all_ok (snd (handleAPIRequest now_put now n req cache))).
  { intros n Hn. rewrite (handleAPIRequest_from_cache now_put now n req cache Hn).
    destruct (cache_match req cache) as [c|] eqn:Ec; cbn [fst snd].
    - split; [|exact Hcache]. exact (Hcache _ _ Ec).
    - split; [reflexivity|exact Hcache]. }
  destruct net as [nr|]; [|apply Hfrom; left; reflexivity].
  destruct (ok nr) eqn:Eok; [|apply Hfrom; right; exists nr; split; [reflexivity|exact Eok]].
  unfold handleAPIRequest. rewrite Eok. cbn [fst snd]. split; [exact Eok|].
  intros k r Hk. unfold cache_put in Hk.
  destruct (decide (href req = k)) as [<-|Hne].
  - rewrite lookup_insert_eq in Hk. injection Hk as <-. exact Eok.
  - rewrite lookup_insert_ne in Hk by exact Hne. exact (Hcache k r Hk).
Qed.

Lemma api_handler_answers_ok_witness :
  let req := {| href := "https://query1.finance.yahoo.com/v8/finance/chart/^NSEI";
                destination := "" |} in
  all_ok ∅ /\
  ok (fst (handleAPIRequest 0 0 (Resolved (unavailable "down")) req ∅)) = true.
Proof.
  intros req.
  assert (H : all_ok ∅) by (intros k r Hk; rewrite lookup_empty in Hk; discriminate).
  split; [exact H|].
  exact (proj1 (api_handler_answers_ok 0 0 (Resolved (unavailable "down")) req ∅ H)).
Defined.

(** X25.  A successful API response is handed on as it came and cached
    with the date of the put.  A later request for which the network
    fails, or answers unsuccessfully, gets that response back with its
    status and body, dated with the put, and marked
    [sw-cache-stale: true] exactly when more than five minutes have
    passed since the put (for a response that did not carry the mark
    itself); the cache is not touched. *)
Theorem api_response_round_trip (t0 now0 : Z) (req : Request) (nr : Response)
    (cache : gmap string Response)
    (Hok : ok nr = true)
    (Hmark : headers nr !! "sw-cache-stale" = None) :
  let first := handleAPIRequest t0 now0 (Resolved nr) req cache in
  fst first = nr /\
  forall (t1 now_put : Z) (net : FetchResult),
    (net = Rejected \/ exists bad, net = Resolved bad /\ ok bad = false) ->
    let second := handleAPIRequest now_put t1 net req (snd first) in
    snd second = snd first /\
    status (fst second) = status nr /\
    statusText (fst second) = statusText nr /\
    body (fst second) = body nr /\
    headers (fst second) !! "sw-cache-date" = Some (HDate t0) /\
    (headers (fst second) !! "sw-cache-stale" = Some (HText "true")
     <-> (CACHE_DURATION_API < t1 - t0)%Z).
Proof.
  assert (Hfirst : handleAPIRequest t0 now0 (Resolved nr) req cache
                   = (nr, cache_put req (dated t0 nr) cache))
    by (unfold handleAPIRequest; rewrite Hok; reflexivity).
  cbv zeta. rewrite Hfirst. cbn [fst snd].
  split; [reflexivity|]. intros t1 now_put net Hnet.
  rewrite (handleAPIRequest_from_cache now_put t1 net req _ Hnet).
  unfold cache_match, cache_put. rewrite lookup_insert_eq. cbn [fst snd].
  unfold cache_time, dated. cbn [headers status statusText body].
  rewrite lookup_insert_eq. unfold older_than.
  repeat split; try reflexivity.
  - destruct (_ <? _)%Z.
    + rewrite lookup_insert_ne by discriminate. apply lookup_insert_eq.
    + apply lookup_insert_eq.
  - destruct (Z.ltb_spec CACHE_DURATION_API (t1 - t0)); [tauto|].
    rewrite lookup_insert_ne by discriminate. rewrite Hmark. discriminate.
  - intros Hlt. destruct (Z.ltb_spec CACHE_DURATION_API (t1 - t0)); [|lia].
    apply lookup_insert_eq.
Qed.

Lemma api_response_round_trip_witness :
  let req := {| href := "https://query1.finance.yahoo.com/v8/finance/chart/^NSEI";
                destination := "" |} in
  let nr := {| status := 200; statusText := "OK";
               body := Json (Some (chart_of_closes [100])); headers := ∅ |} in
  ok nr = true /\ headers nr !! "sw-cache-stale" = None /\
  body (fst (handleAPIRequest 0 400000 Rejected req
               (snd (handleAPIRequest 1000 1000 (Resolved nr) req ∅))))
  = body nr.
Proof.
  intros req nr.
  assert (Hm : headers nr !! "sw-cache-stale" = None) by apply lookup_empty.
  split; [reflexivity|]. split; [exact Hm|].
  exact (proj1 (proj2 (proj2 (proj2
           (proj2 (api_response_round_trip 1000 1000 req nr ∅ eq_refl Hm)
                  400000%Z 0%Z Rejected (or_introl eq_refl)))))).
Defined.

(** ** The service worker's fallback in the trackers *)

Lemma fallback_day (now : Z) :
  (now / 1000 * 1000 / 86400000 = now / 86400000)%Z.
Proof. Z.div_mod_to_equations. lia. Qed.

(** X26.  With no cached copy and no usable network answer the API
    handler serves its built-in payload, which both trackers accept as
    a real answer.  The enhanced tracker installs a history of one bar,
    dated today and closing at 24741, instead of its own fallback
    series of 100 bars, and caches it; [calculateEMAs] then returns
    early and computes nothing.  The basic tracker takes 24741 as the
    current price and, the series being too short, the constants 53.21
    and 24631 for the RSI and the 200-day average. *)
Theorem offline_fallback_in_the_trackers (now_put now now_cache : Z) (net : FetchResult)
    (req : Request) (cache : gmap string Response) (t : Tracker) (ls : LocalStorage)
    (Hnet : net = Rejected \/ exists bad, net = Resolved bad /\ ok bad = false)
    (Hmiss : cache_match req cache = None)
    (Hnow : (0 <= now <= 8640000000000000)%Z) :
  let response := fst (handleAPIRequest now_put now net req cache) in
  json_of response = Some (Some (fallback_chart now)) /\
  (let w := fetchHistoricalData now_cache (json_of response) (t, ls) in
   historicalData (fst w)
   = [ {| date := (now / 86400000)%Z; close := JNum 24741; high := JNum 24850;
          low := JNum 24680; open := JNum (2481885 # 100);
          volume := JNum 1500000 |} ] /\
   calculateEMAs (fst w) = fst w /\
   (full ls = false ->
    getItem "nifty_historical" (snd w)
    = Some (Parsed {| e_data := VBars (historicalData (fst w));
                      e_timestamp := now_cache;
                      e_version := current_version |}))) /\
  (forall n : Z,
     let d := NiftyTracker.processYahooData n (Some (fallback_chart now)) in
     NiftyTracker.current_price d = JNum 24741 /\
     NiftyTracker.rsi d = NiftyTracker.FALLBACK_rsi /\
     NiftyTracker.dma_200 d = NiftyTracker.FALLBACK_dma_200).
Proof.
  cbv zeta. rewrite (handleAPIRequest_from_cache now_put now net req cache Hnet), Hmiss.
  cbn [fst]. split; [reflexivity|]. split; [|intros n; repeat split; reflexivity].
  assert (Hv : valid_time (now / 1000) = true).
  { unfold valid_time. apply Z.leb_le. apply Z.abs_le.
    Z.div_mod_to_equations. lia. }
  assert (Hh : historicalData (processHistoricalData (Some (fallback_chart now)) t)
               = [ {| date := (now / 86400000)%Z; close := JNum 24741;
                      high := JNum 24850; low := JNum 24680;
                      open := JNum (2481885 # 100); volume := JNum 1500000 |} ]).
  { unfold processHistoricalData, try_processHistoricalData.
    cbn [fallback_chart quote timestamp map_bars]. unfold bar_of, iso_date.
    rewrite Hv. cbn. rewrite fallback_day. reflexivity. }
  change (json_of (getFallbackAPIResponse now)) with (Some (Some (fallback_chart now))).
  cbn [fetchHistoricalData fst snd]. split; [exact Hh|]. split.
  - unfold calculateEMAs. rewrite Hh. reflexivity.
  - intros Hf. apply getItem_cacheData_eq. exact Hf.
Qed.

Lemma offline_fallback_in_the_trackers_witness :
  let req := {| href := "https://query1.finance.yahoo.com/v8/finance/chart/^NSEI";
                destination := "" |} in
  let ls := {| items := ∅; full := false |} in
  let t := constructed (bars_of_closes (repeat 100 100)) in
  cache_match req ∅ = None /\ (0 <= 1700000000000 <= 8640000000000000)%Z /\
  length (historicalData
            (fst (fetchHistoricalData 0
                    (json_of (fst (handleAPIRequest 0 1700000000000 Rejected req ∅)))
                    (t, ls)))) = 1%nat.
Proof.
  intros req ls t.
  assert (Hm : cache_match req ∅ = None) by apply lookup_empty.
  split; [exact Hm|]. split; [lia|].
  rewrite (proj1 (proj1 (proj2
             (offline_fallback_in_the_trackers 0 1700000000000 0 Rejected req ∅ t ls
                (or_introl eq_refl) Hm ltac:(lia))))).
  reflexivity.
Defined.
